(** * hvac-occupancy-forecasting: a shallow embedding of the package

    The package is a scaffold: almost every function raises
    [NotImplementedError].  What the code really does is (a) raise, with a
    message, (b) validate a policy name, (c) guard [predict] on the [model]
    attribute, and (d) copy a DataFrame in [engineer_features].  The
    embedding keeps exactly that: Python objects live in a store, a call is
    a computation on the store that returns a value or raises. *)

From Stdlib Require Import Floats.SpecFloat.
From stdpp Require Import gmap strings list fin_maps.

Local Open Scope string_scope.

(** ** Python values, exceptions and objects *)

(** Object identity: a DataFrame or a model instance is reached through a
    reference into the store. *)
Definition loc := positive.

Inductive pyval :=
| PyNone
| PyBool (b : bool)
| PyInt (z : Z)
| PyFloat (f : spec_float)
| PyStr (s : string)
| PyRef (l : loc).

(** A [Dict[str, Any]] literal or keyword dictionary, in insertion order. *)
Definition pydict := list (string * pyval).

(** The two exception classes the package raises. *)
Inductive exn :=
| NotImplementedError (msg : string)
| ValueError (msg : string).

(** A pandas table: column labels, row index, and the cells column by
    column. *)
Record DataFrame := mkDataFrame {
  df_columns : list string;
  df_index : list pyval;
  df_data : list (list pyval)
}.

Module Prophet.
(** Attributes set by [ProphetOccupancyModel.__init__]. *)
Record t := mk {
  zone_id : option string;
  freq : string;
  prophet_kwargs : pydict;
  model : option pyval        (* [None] is Python's [None] *)
}.
End Prophet.

Module Transformer.
(** Attributes set by [TransformerOccupancyModel.__init__]. *)
Record t := mk {
  zone_id : option string;
  seq_length : Z;
  pred_length : Z;
  d_model : Z;
  n_heads : Z;
  n_layers : Z;
  kwargs : pydict;
  model : option pyval;
  scaler : option pyval
}.
End Transformer.

Inductive object :=
| ODataFrame (d : DataFrame)
| OProphet (m : Prophet.t)
| OTransformer (m : Transformer.t).

(** ** Computations: store passing with exceptions *)

Inductive outcome (A : Type) :=
| Return (a : A)
| Raise (e : exn).
Arguments Return {A} a.
Arguments Raise {A} e.

(** [None] stands for a run that dereferences a reference to no object of
    the expected class; no Python caller passing well-typed arguments can
    produce it. *)
Definition py (A : Type) : Type :=
  gmap loc object → option (outcome A * gmap loc object).

Definition raise {A} (e : exn) : py A := λ σ, Some (Raise e, σ).

(** Sequencing: an exception skips the rest and keeps the store it was
    raised in.  With these instances [x ← m; k] is the usual notation. *)
#[global] Instance py_ret : MRet py := λ A a σ, Some (Return a, σ).

#[global] Instance py_bind : MBind py := λ A B k m σ,
  match m σ with
  | Some (Return a, σ') => k a σ'
  | Some (Raise e, σ') => Some (Raise e, σ')
  | None => None
  end.

(** Python's [pass]. *)
Definition pass : py unit := mret tt.

(** Allocation of a new object. *)
Definition alloc (o : object) : py loc :=
  λ σ, let l := fresh (dom σ) in Some (Return l, <[l := o]> σ).

(** Assignment to the attributes of an object that exists. *)
Definition store_obj (l : loc) (o : object) : py unit :=
  λ σ, Some (Return tt, <[l := o]> σ).

(** The test [x is None] on an attribute: an attribute that was never
    given a value and one that was assigned Python's [None] are both
    [None]. *)
Definition is_None (x : option pyval) : bool :=
  match x with
  | None | Some PyNone => true
  | Some _ => false
  end.

(** Reading an object that must be a DataFrame. *)
Definition load_df (l : loc) : py DataFrame :=
  λ σ, match σ !! l with
       | Some (ODataFrame d) => Some (Return d, σ)
       | _ => None
       end.

(** [df.copy()]: a new DataFrame object with the same labels, index and
    cells ([deep=True] is the default). *)
Definition DataFrame_copy (df : loc) : py loc :=
  d ← load_df df;
  alloc (ODataFrame (mkDataFrame (df_columns d) (df_index d) (df_data d))).

(** ** Formatting: [str] of a list of strings, as an f-string prints it *)

(** [repr] of a [str] without quotes, backslashes or control characters:
    the text between single quotes. *)
Definition repr_str (s : string) : string := "'" +:+ s +:+ "'".

Fixpoint join (sep : string) (l : list string) : string :=
  match l with
  | [] => ""
  | [x] => x
  | x :: l' => x +:+ sep +:+ join sep l'
  end.

Definition str_list (l : list string) : string :=
  "[" +:+ join ", " (map repr_str l) +:+ "]".

(** [cites msg name]: the name occurs in the message. *)
Definition cites (msg name : string) : Prop :=
  ∃ pre post : string, msg = pre +:+ name +:+ post.

(** ** src/control/optimizer.py *)

Module optimizer.

Definition default_comfort_constraints : pydict :=
  [ ("min_temp", PyInt 60);
    ("max_temp", PyInt 85);
    ("pre_condition_time", PyInt 30);
    ("occupancy_threshold", PyInt 0) ].

Definition compute_savings_and_setpoints
    (occupancy_forecast hvac_baseline : loc) (tou_rates : option loc)
    (comfort_constraints : option pydict) : py pyval :=
  let comfort_constraints :=
    match comfort_constraints with
    | None => default_comfort_constraints
    | Some c => c
    end in
  raise (NotImplementedError
           "Implement setpoint optimization and savings calculation").

Definition estimate_savings_potential
    (historical_df : loc) (occupancy_col hvac_on_col energy_col : string)
    (tou_rate_col : option string) : py pyval :=
  raise (NotImplementedError
           "Implement historical savings potential analysis").

Definition valid_policies : list string :=
  ["occupancy_setback"; "predictive_setback"; "optimal_schedule"].

Definition simulate_control_policy
    (historical_df : loc) (policy : string)
    (policy_params : option pydict) : py pyval :=
  if negb (bool_decide (policy ∈ valid_policies)) then
    raise (ValueError ("Policy must be one of " +:+ str_list valid_policies))
  else
    raise (NotImplementedError "Implement control policy simulation").

End optimizer.

(** ** src/data/load.py *)

Module load.

Definition load_occupancy (path : string) (parse_dates : bool) : py pyval :=
  raise (NotImplementedError "Implement once raw data format is confirmed").

Definition load_hvac (path : string) (parse_dates : bool) : py pyval :=
  raise (NotImplementedError "Implement once raw data format is confirmed").

Definition load_weather (path : string) (parse_dates : bool) : py pyval :=
  raise (NotImplementedError "Implement once raw data format is confirmed").

Definition load_tou (path : string) (parse_dates : bool) : py pyval :=
  raise (NotImplementedError "Implement once raw data format is confirmed").

Definition load_space_metadata (path : string) : py pyval :=
  raise (NotImplementedError "Implement once raw data format is confirmed").

End load.

(** ** src/data/preprocess.py *)

Module preprocess.

Definition merge_occupancy_hvac
    (occ_df hvac_df : loc) (freq how : string) : py pyval :=
  raise (NotImplementedError
           "Implement merge logic once data schemas are confirmed").

Definition add_weather_features (df weather_df : loc) : py pyval :=
  raise (NotImplementedError "Implement weather feature merging").

Definition add_tou_features (df tou_df : loc) : py pyval :=
  raise (NotImplementedError "Implement TOU feature merging").

Definition default_lag_periods : list Z := [1; 4; 96]%Z.

(** Both flag-gated branches hold only comments and [pass]. *)
Definition engineer_features
    (df : loc) (include_time_features include_lag_features : bool)
    (lag_periods : option (list Z)) : py pyval :=
  let lag_periods :=
    match lag_periods with
    | None => default_lag_periods
    | Some l => l
    end in
  result ← DataFrame_copy df;
  _ ← (if include_time_features then pass else mret tt);
  _ ← (if include_lag_features then pass else mret tt);
  mret (PyRef result).

(** The copy is made before the raise. *)
Definition compute_opportunity_for_savings
    (df : loc) (occupancy_col hvac_state_col : string)
    (energy_col : option string) : py pyval :=
  result ← DataFrame_copy df;
  raise (NotImplementedError "Implement opportunity for savings calculation").

End preprocess.

(** ** src/models/prophet_baseline.py *)

Module prophet_baseline.

Definition __init__
    (zone_id : option string) (freq : string) (prophet_kwargs : pydict)
    : Prophet.t :=
  {| Prophet.zone_id := zone_id;
     Prophet.freq := freq;
     Prophet.prophet_kwargs := prophet_kwargs;
     Prophet.model := None |}.

(** The class call: a new instance, initialised by [__init__]. *)
Definition ProphetOccupancyModel
    (zone_id : option string) (freq : string) (prophet_kwargs : pydict)
    : py pyval :=
  self ← alloc (OProphet (__init__ zone_id freq prophet_kwargs));
  mret (PyRef self).

(** Reading the attributes of [self]. *)
Definition load_self (self : loc) : py Prophet.t :=
  λ σ, match σ !! self with
       | Some (OProphet m) => Some (Return m, σ)
       | _ => None
       end.

(** [__init__] called as a method of an instance that exists,
    [self.__init__(...)]: every attribute is assigned anew and the call
    returns [None]. *)
Definition call__init__
    (self : loc) (zone_id : option string) (freq : string)
    (prophet_kwargs : pydict) : py pyval :=
  _ ← load_self self;
  _ ← store_obj self (OProphet (__init__ zone_id freq prophet_kwargs));
  mret PyNone.

Definition fit (self : loc) (df : loc) : py pyval :=
  raise (NotImplementedError "Implement Prophet model fitting").

Definition predict (self : loc) (periods : Z) (include_history : bool)
    : py pyval :=
  this ← load_self self;
  if is_None (Prophet.model this) then
    raise (ValueError "Model must be fitted before prediction")
  else
    raise (NotImplementedError "Implement Prophet prediction").

Definition default_metrics : list string := ["mae"; "rmse"; "mape"].

Definition evaluate (self : loc) (test_df : loc)
    (metrics : option (list string)) : py pyval :=
  let metrics :=
    match metrics with
    | None => default_metrics
    | Some m => m
    end in
  raise (NotImplementedError "Implement model evaluation").

End prophet_baseline.

(** ** src/models/transformer_baseline.py *)

Module transformer_baseline.

Definition __init__
    (zone_id : option string)
    (seq_length pred_length d_model n_heads n_layers : Z)
    (kwargs : pydict) : Transformer.t :=
  {| Transformer.zone_id := zone_id;
     Transformer.seq_length := seq_length;
     Transformer.pred_length := pred_length;
     Transformer.d_model := d_model;
     Transformer.n_heads := n_heads;
     Transformer.n_layers := n_layers;
     Transformer.kwargs := kwargs;
     Transformer.model := None;
     Transformer.scaler := None |}.

Definition TransformerOccupancyModel
    (zone_id : option string)
    (seq_length pred_length d_model n_heads n_layers : Z)
    (kwargs : pydict) : py pyval :=
  self ← alloc (OTransformer (__init__ zone_id seq_length pred_length
                                       d_model n_heads n_layers kwargs));
  mret (PyRef self).

Definition load_self (self : loc) : py Transformer.t :=
  λ σ, match σ !! self with
       | Some (OTransformer m) => Some (Return m, σ)
       | _ => None
       end.

(** [__init__] called as a method of an instance that exists. *)
Definition call__init__
    (self : loc) (zone_id : option string)
    (seq_length pred_length d_model n_heads n_layers : Z)
    (kwargs : pydict) : py pyval :=
  _ ← load_self self;
  _ ← store_obj self (OTransformer (__init__ zone_id seq_length pred_length
                                             d_model n_heads n_layers kwargs));
  mret PyNone.

Definition _build_model (self : loc) : py pyval :=
  raise (NotImplementedError "Implement transformer architecture").

Definition _prepare_sequences (self : loc) (df : loc) (target_col : string)
    (feature_cols : option (list string)) : py pyval :=
  raise (NotImplementedError "Implement sequence preparation").

Definition fit (self : loc) (df : loc) (epochs batch_size : Z)
    (learning_rate val_split : spec_float) : py pyval :=
  raise (NotImplementedError "Implement transformer training").

Definition predict (self : loc) (df : loc) (horizon : option Z) : py pyval :=
  this ← load_self self;
  if is_None (Transformer.model this) then
    raise (ValueError "Model must be fitted before prediction")
  else
    raise (NotImplementedError "Implement transformer prediction").

Definition default_metrics : list string := ["mae"; "rmse"; "mape"].

Definition evaluate (self : loc) (test_df : loc)
    (metrics : option (list string)) : py pyval :=
  let metrics :=
    match metrics with
    | None => default_metrics
    | Some m => m
    end in
  raise (NotImplementedError "Implement model evaluation").

End transformer_baseline.

(** ** src/viz/dashboards.py *)

Module dashboards.

Definition plot_daily_opportunity_for_savings
    (df : loc) (date_col opportunity_energy_col total_energy_col : string)
    (figsize : Z * Z) (title : option string) : py pyval :=
  raise (NotImplementedError "Implement daily opportunity plot").

Definition plot_example_day_timeline
    (df : loc) (date : string) (zone_id : option string) (figsize : Z * Z)
    : py pyval :=
  raise (NotImplementedError "Implement example day timeline plot").

Definition plot_occupancy_heatmap
    (df : loc) (zone_id : option string) (agg_func : string)
    (figsize : Z * Z) : py pyval :=
  raise (NotImplementedError "Implement occupancy heatmap").

Definition plot_savings_summary (savings_dict : pydict) (figsize : Z * Z)
    : py pyval :=
  raise (NotImplementedError "Implement savings summary plot").

Definition create_interactive_dashboard (df : loc) (port : Z) : py pyval :=
  raise (NotImplementedError "Implement interactive dashboard").

End dashboards.

(** ** The package interface *)

Inductive layer :=
| DataLoading
| Preprocessing
| Optimizer
| Models
| Visualization.

(** What a caller of the package can do: call a module-level function, call
    a method on an instance ([__init__] included), or instantiate a class.
    The arguments are the values bound to the parameters when the body
    starts; a keyword dictionary is what [**kwargs] has collected. *)
Inductive call :=
(* src/data/load.py *)
| call_load_occupancy (path : string) (parse_dates : bool)
| call_load_hvac (path : string) (parse_dates : bool)
| call_load_weather (path : string) (parse_dates : bool)
| call_load_tou (path : string) (parse_dates : bool)
| call_load_space_metadata (path : string)
(* src/data/preprocess.py *)
| call_merge_occupancy_hvac (occ_df hvac_df : loc) (freq how : string)
| call_add_weather_features (df weather_df : loc)
| call_add_tou_features (df tou_df : loc)
| call_engineer_features (df : loc)
    (include_time_features include_lag_features : bool)
    (lag_periods : option (list Z))
| call_compute_opportunity_for_savings (df : loc)
    (occupancy_col hvac_state_col : string) (energy_col : option string)
(* src/control/optimizer.py *)
| call_compute_savings_and_setpoints (occupancy_forecast hvac_baseline : loc)
    (tou_rates : option loc) (comfort_constraints : option pydict)
| call_estimate_savings_potential (historical_df : loc)
    (occupancy_col hvac_on_col energy_col : string)
    (tou_rate_col : option string)
| call_simulate_control_policy (historical_df : loc) (policy : string)
    (policy_params : option pydict)
(* src/models/prophet_baseline.py *)
| call_ProphetOccupancyModel (zone_id : option string) (freq : string)
    (prophet_kwargs : pydict)
| call_Prophet__init__ (self : loc) (zone_id : option string) (freq : string)
    (prophet_kwargs : pydict)
| call_Prophet_fit (self df : loc)
| call_Prophet_predict (self : loc) (periods : Z) (include_history : bool)
| call_Prophet_evaluate (self test_df : loc) (metrics : option (list string))
(* src/models/transformer_baseline.py *)
| call_TransformerOccupancyModel (zone_id : option string)
    (seq_length pred_length d_model n_heads n_layers : Z) (kwargs : pydict)
| call_Transformer__init__ (self : loc) (zone_id : option string)
    (seq_length pred_length d_model n_heads n_layers : Z) (kwargs : pydict)
| call_Transformer_build_model (self : loc)
| call_Transformer_prepare_sequences (self df : loc) (target_col : string)
    (feature_cols : option (list string))
| call_Transformer_fit (self df : loc) (epochs batch_size : Z)
    (learning_rate val_split : spec_float)
| call_Transformer_predict (self df : loc) (horizon : option Z)
| call_Transformer_evaluate (self test_df : loc)
    (metrics : option (list string))
(* src/viz/dashboards.py *)
| call_plot_daily_opportunity_for_savings (df : loc)
    (date_col opportunity_energy_col total_energy_col : string)
    (figsize : Z * Z) (title : option string)
| call_plot_example_day_timeline (df : loc) (date : string)
    (zone_id : option string) (figsize : Z * Z)
| call_plot_occupancy_heatmap (df : loc) (zone_id : option string)
    (agg_func : string) (figsize : Z * Z)
| call_plot_savings_summary (savings_dict : pydict) (figsize : Z * Z)
| call_create_interactive_dashboard (df : loc) (port : Z).

Definition exec (c : call) : py pyval :=
  match c with
  | call_load_occupancy p d => load.load_occupancy p d
  | call_load_hvac p d => load.load_hvac p d
  | call_load_weather p d => load.load_weather p d
  | call_load_tou p d => load.load_tou p d
  | call_load_space_metadata p => load.load_space_metadata p
  | call_merge_occupancy_hvac o h f w => preprocess.merge_occupancy_hvac o h f w
  | call_add_weather_features d w => preprocess.add_weather_features d w
  | call_add_tou_features d t => preprocess.add_tou_features d t
  | call_engineer_features d t l p => preprocess.engineer_features d t l p
  | call_compute_opportunity_for_savings d o h e =>
      preprocess.compute_opportunity_for_savings d o h e
  | call_compute_savings_and_setpoints o h t c =>
      optimizer.compute_savings_and_setpoints o h t c
  | call_estimate_savings_potential d o h e t =>
      optimizer.estimate_savings_potential d o h e t
  | call_simulate_control_policy d p pp =>
      optimizer.simulate_control_policy d p pp
  | call_ProphetOccupancyModel z f k =>
      prophet_baseline.ProphetOccupancyModel z f k
  | call_Prophet__init__ s z f k => prophet_baseline.call__init__ s z f k
  | call_Prophet_fit s d => prophet_baseline.fit s d
  | call_Prophet_predict s p h => prophet_baseline.predict s p h
  | call_Prophet_evaluate s d m => prophet_baseline.evaluate s d m
  | call_TransformerOccupancyModel z s p d h l k =>
      transformer_baseline.TransformerOccupancyModel z s p d h l k
  | call_Transformer__init__ s z sl p d h l k =>
      transformer_baseline.call__init__ s z sl p d h l k
  | call_Transformer_build_model s => transformer_baseline._build_model s
  | call_Transformer_prepare_sequences s d t f =>
      transformer_baseline._prepare_sequences s d t f
  | call_Transformer_fit s d e b l v => transformer_baseline.fit s d e b l v
  | call_Transformer_predict s d h => transformer_baseline.predict s d h
  | call_Transformer_evaluate s d m => transformer_baseline.evaluate s d m
  | call_plot_daily_opportunity_for_savings d a b c f t =>
      dashboards.plot_daily_opportunity_for_savings d a b c f t
  | call_plot_example_day_timeline d a z f =>
      dashboards.plot_example_day_timeline d a z f
  | call_plot_occupancy_heatmap d z a f =>
      dashboards.plot_occupancy_heatmap d z a f
  | call_plot_savings_summary s f => dashboards.plot_savings_summary s f
  | call_create_interactive_dashboard d p =>
      dashboards.create_interactive_dashboard d p
  end.

Definition layer_of (c : call) : layer :=
  match c with
  | call_load_occupancy _ _ | call_load_hvac _ _ | call_load_weather _ _
  | call_load_tou _ _ | call_load_space_metadata _ => DataLoading
  | call_merge_occupancy_hvac _ _ _ _ | call_add_weather_features _ _
  | call_add_tou_features _ _ | call_engineer_features _ _ _ _
  | call_compute_opportunity_for_savings _ _ _ _ => Preprocessing
  | call_compute_savings_and_setpoints _ _ _ _
  | call_estimate_savings_potential _ _ _ _ _
  | call_simulate_control_policy _ _ _ => Optimizer
  | call_ProphetOccupancyModel _ _ _ | call_Prophet__init__ _ _ _ _
  | call_Prophet_fit _ _
  | call_Prophet_predict _ _ _ | call_Prophet_evaluate _ _ _
  | call_TransformerOccupancyModel _ _ _ _ _ _ _
  | call_Transformer__init__ _ _ _ _ _ _ _ _
  | call_Transformer_build_model _
  | call_Transformer_prepare_sequences _ _ _ _
  | call_Transformer_fit _ _ _ _ _ _ | call_Transformer_predict _ _ _
  | call_Transformer_evaluate _ _ _ => Models
  | call_plot_daily_opportunity_for_savings _ _ _ _ _ _
  | call_plot_example_day_timeline _ _ _ _
  | call_plot_occupancy_heatmap _ _ _ _ | call_plot_savings_summary _ _
  | call_create_interactive_dashboard _ _ => Visualization
  end.

(** Public functions are the module-level functions and the methods whose
    name has no leading underscore.  Instantiating a class runs [__init__],
    a special method, and is kept apart; so is [__init__] called by
    name. *)
Inductive call_kind :=
  PublicFunction | PrivateMethod | ClassCall | SpecialMethod.

Definition kind_of (c : call) : call_kind :=
  match c with
  | call_ProphetOccupancyModel _ _ _
  | call_TransformerOccupancyModel _ _ _ _ _ _ _ => ClassCall
  | call_Prophet__init__ _ _ _ _
  | call_Transformer__init__ _ _ _ _ _ _ _ _ => SpecialMethod
  | call_Transformer_build_model _
  | call_Transformer_prepare_sequences _ _ _ _ => PrivateMethod
  | _ => PublicFunction
  end.

(** The two validations that are implemented: the policy-name check and
    the fit-before-predict guard. *)
Definition is_validation (c : call) : bool :=
  match c with
  | call_simulate_control_policy _ _ _
  | call_Prophet_predict _ _ _
  | call_Transformer_predict _ _ _ => true
  | _ => false
  end.

Definition is_engineer_features (c : call) : bool :=
  match c with
  | call_engineer_features _ _ _ _ => true
  | _ => false
  end.

Definition is_predict (c : call) : bool :=
  match c with
  | call_Prophet_predict _ _ _ | call_Transformer_predict _ _ _ => true
  | _ => false
  end.

(** The two functions whose body starts with [df.copy()]. *)
Definition copies_table (c : call) : bool :=
  match c with
  | call_engineer_features _ _ _ _
  | call_compute_opportunity_for_savings _ _ _ _ => true
  | _ => false
  end.

(** *** Well-typed arguments *)

Definition is_DataFrame (σ : gmap loc object) (l : loc) : bool :=
  match σ !! l with Some (ODataFrame _) => true | _ => false end.

Definition is_Prophet (σ : gmap loc object) (l : loc) : bool :=
  match σ !! l with Some (OProphet _) => true | _ => false end.

Definition is_Transformer (σ : gmap loc object) (l : loc) : bool :=
  match σ !! l with Some (OTransformer _) => true | _ => false end.

(** A keyword dictionary as [**kwargs] can collect it: the keys are
    distinct and none is the name of a parameter (a call that passes such
    a key fails with [TypeError] before the body starts). *)
Definition valid_kwargs (params : list string) (kw : pydict) : bool :=
  bool_decide (NoDup kw.*1)
  && forallb (λ k, negb (bool_decide (k ∈ params))) kw.*1.

Definition Prophet_params : list string := ["self"; "zone_id"; "freq"].

Definition Transformer_params : list string :=
  ["self"; "zone_id"; "seq_length"; "pred_length"; "d_model"; "n_heads";
   "n_layers"].

(** Every argument annotated [pd.DataFrame] refers to a DataFrame,
    [self] to an instance of the method's class, and a keyword dictionary
    is one that [**kwargs] can collect. *)
Definition well_typed (σ : gmap loc object) (c : call) : bool :=
  match c with
  | call_load_occupancy _ _ | call_load_hvac _ _ | call_load_weather _ _
  | call_load_tou _ _ | call_load_space_metadata _ => true
  | call_merge_occupancy_hvac o h _ _ => is_DataFrame σ o && is_DataFrame σ h
  | call_add_weather_features d w => is_DataFrame σ d && is_DataFrame σ w
  | call_add_tou_features d t => is_DataFrame σ d && is_DataFrame σ t
  | call_engineer_features d _ _ _ => is_DataFrame σ d
  | call_compute_opportunity_for_savings d _ _ _ => is_DataFrame σ d
  | call_compute_savings_and_setpoints o h t _ =>
      is_DataFrame σ o && is_DataFrame σ h
      && match t with Some t => is_DataFrame σ t | None => true end
  | call_estimate_savings_potential d _ _ _ _ => is_DataFrame σ d
  | call_simulate_control_policy d _ _ => is_DataFrame σ d
  | call_ProphetOccupancyModel _ _ k => valid_kwargs Prophet_params k
  | call_Prophet__init__ s _ _ k =>
      is_Prophet σ s && valid_kwargs Prophet_params k
  | call_Prophet_fit s d => is_Prophet σ s && is_DataFrame σ d
  | call_Prophet_predict s _ _ => is_Prophet σ s
  | call_Prophet_evaluate s d _ => is_Prophet σ s && is_DataFrame σ d
  | call_TransformerOccupancyModel _ _ _ _ _ _ k =>
      valid_kwargs Transformer_params k
  | call_Transformer__init__ s _ _ _ _ _ _ k =>
      is_Transformer σ s && valid_kwargs Transformer_params k
  | call_Transformer_build_model s => is_Transformer σ s
  | call_Transformer_prepare_sequences s d _ _ =>
      is_Transformer σ s && is_DataFrame σ d
  | call_Transformer_fit s d _ _ _ _ => is_Transformer σ s && is_DataFrame σ d
  | call_Transformer_predict s d _ => is_Transformer σ s && is_DataFrame σ d
  | call_Transformer_evaluate s d _ => is_Transformer σ s && is_DataFrame σ d
  | call_plot_daily_opportunity_for_savings d _ _ _ _ _ => is_DataFrame σ d
  | call_plot_example_day_timeline d _ _ _ => is_DataFrame σ d
  | call_plot_occupancy_heatmap d _ _ _ => is_DataFrame σ d
  | call_plot_savings_summary _ _ => true
  | call_create_interactive_dashboard d _ => is_DataFrame σ d
  end.

(** *** Sessions: what a program using the package can reach *)

(** One step of a client program: a call into the package that runs to a
    return or an exception, or pandas work of the client's own (building a
    new table, changing one in place).  Model attributes change only
    through the package's methods. *)
Inductive step : gmap loc object → gmap loc object → Prop :=
| step_call (c : call) (σ σ' : gmap loc object) (o : outcome pyval) :
    exec c σ = Some (o, σ') → step σ σ'
| step_new_DataFrame (d : DataFrame) (σ : gmap loc object) :
    step σ (<[fresh (dom σ) := ODataFrame d]> σ)
| step_set_DataFrame (l : loc) (d d' : DataFrame) (σ : gmap loc object) :
    σ !! l = Some (ODataFrame d) → step σ (<[l := ODataFrame d']> σ).

Definition reachable (σ : gmap loc object) : Prop := rtc step ∅ σ.

(** The Unfitted state of the fit/predict state machine: [self.model] is
    [None]. *)
Definition unfitted (o : object) : Prop :=
  match o with
  | ODataFrame _ => True
  | OProphet m => Prophet.model m = None
  | OTransformer m => Transformer.model m = None
  end.

Definition all_unfitted (σ : gmap loc object) : Prop :=
  ∀ (l : loc) (o : object), σ !! l = Some o → unfitted o.

(** *** Sample data for the examples *)

Definition sample_df : DataFrame :=
  mkDataFrame
    ["timestamp"; "zone_id"; "occupancy_count"]
    [PyInt 0; PyInt 1]
    [ [PyStr "2024-01-08 09:00"; PyStr "2024-01-08 09:15"];
      [PyStr "Z1"; PyStr "Z1"];
      [PyInt 0; PyInt 3] ].

Definition sample_store : gmap loc object := {[ 1%positive := ODataFrame sample_df ]}.

(** A session: the client builds a table, instantiates both model classes
    and tries to fit the first. *)
Definition sample_prophet : Prophet.t :=
  prophet_baseline.__init__ (Some "Z1") "15min" [].

Definition sample_transformer : Transformer.t :=
  transformer_baseline.__init__ (Some "Z1") 96 96 64 4 2 [].

Definition sample_session : gmap loc object :=
  <[3%positive := OTransformer sample_transformer]>
    (<[2%positive := OProphet sample_prophet]> sample_store).

(** *** Messages *)

(** What the f-string of [simulate_control_policy] prints. *)
Definition policy_error_message : string :=
  "Policy must be one of ['occupancy_setback', 'predictive_setback', 'optimal_schedule']".

Definition must_be_fitted : string := "Model must be fitted before prediction".

(** *** Two readings that the code does not bear out *)

(** Every public function of the four layers, the validations apart,
    raises [NotImplementedError]. *)
Definition all_stubs_raise_not_implemented : Prop :=
  ∀ (c : call) (σ : gmap loc object),
    kind_of c = PublicFunction →
    layer_of c ≠ Visualization →
    is_validation c = false →
    well_typed σ c = true →
    ∃ (msg : string) (σ' : gmap loc object),
      exec c σ = Some (Raise (NotImplementedError msg), σ').

(** [evaluate] on an unfitted instance raises the invalid-state
    [ValueError]. *)
Definition evaluate_guards_fitted_state : Prop :=
  (∀ (σ : gmap loc object) (self test_df : loc) (m : Prophet.t)
     (metrics : option (list string)),
      σ !! self = Some (OProphet m) → Prophet.model m = None →
      ∃ σ' : gmap loc object,
        prophet_baseline.evaluate self test_df metrics σ
        = Some (Raise (ValueError must_be_fitted), σ'))
  ∧ (∀ (σ : gmap loc object) (self test_df : loc) (m : Transformer.t)
       (metrics : option (list string)),
      σ !! self = Some (OTransformer m) → Transformer.model m = None →
      ∃ σ' : gmap loc object,
        transformer_baseline.evaluate self test_df metrics σ
        = Some (Raise (ValueError must_be_fitted), σ')).

(** ** What a call does to the store *)

(** The calls whose body creates an object: the two that run [df.copy()],
    and the instantiation of a class. *)
Definition allocates (c : call) : bool :=
  match c with
  | call_engineer_features _ _ _ _
  | call_compute_opportunity_for_savings _ _ _ _
  | call_ProphetOccupancyModel _ _ _
  | call_TransformerOccupancyModel _ _ _ _ _ _ _ => true
  | _ => false
  end.

(** The instance that an explicit [__init__] assigns to. *)
Definition reinit_of (c : call) : option loc :=
  match c with
  | call_Prophet__init__ self _ _ _
  | call_Transformer__init__ self _ _ _ _ _ _ _ => Some self
  | _ => None
  end.

Definition is_instance (o : object) : bool :=
  match o with
  | ODataFrame _ => false
  | OProphet _ | OTransformer _ => true
  end.

(** [self.scaler] is [None]. *)
Definition scaler_unset (o : object) : Prop :=
  match o with
  | OTransformer m => Transformer.scaler m = None
  | _ => True
  end.

(** What a run from [σ] to [σ'] has done to the store: nothing, one
    object added (a copy of a table, a new instance), or the attributes of
    one instance assigned anew by [__init__]. *)
Inductive effect (σ σ' : gmap loc object) : Prop :=
| effect_none :
    σ' = σ → effect σ σ'
| effect_copy (df : loc) (d : DataFrame) :
    σ !! df = Some (ODataFrame d) →
    σ' = <[fresh (dom σ) := ODataFrame d]> σ → effect σ σ'
| effect_Prophet (zone_id : option string) (freq : string) (kw : pydict) :
    σ' = <[fresh (dom σ) :=
             OProphet (prophet_baseline.__init__ zone_id freq kw)]> σ →
    effect σ σ'
| effect_Transformer (zone_id : option string) (sl pl dm nh nl : Z)
    (kw : pydict) :
    σ' = <[fresh (dom σ) :=
             OTransformer (transformer_baseline.__init__
                             zone_id sl pl dm nh nl kw)]> σ →
    effect σ σ'
| effect_Prophet__init__ (self : loc) (m : Prophet.t)
    (zone_id : option string) (freq : string) (kw : pydict) :
    σ !! self = Some (OProphet m) →
    σ' = <[self := OProphet (prophet_baseline.__init__ zone_id freq kw)]> σ →
    effect σ σ'
| effect_Transformer__init__ (self : loc) (m : Transformer.t)
    (zone_id : option string) (sl pl dm nh nl : Z) (kw : pydict) :
    σ !! self = Some (OTransformer m) →
    σ' = <[self := OTransformer (transformer_baseline.__init__
                                   zone_id sl pl dm nh nl kw)]> σ →
    effect σ σ'.

(** ** The package files: src/*/__init__.py *)

Module packages.

(** How a name comes to be bound at the top level of a module. *)
Inductive binding := ImportedName | FunctionDef | ClassDef.

(** The top-level bindings of the six modules, in source order. *)
Definition modules : list (string * list (string * binding)) :=
  [ ("src.data.load",
     [ ("pd", ImportedName); ("Path", ImportedName); ("Optional", ImportedName);
       ("load_occupancy", FunctionDef); ("load_hvac", FunctionDef);
       ("load_weather", FunctionDef); ("load_tou", FunctionDef);
       ("load_space_metadata", FunctionDef) ]);
    ("src.data.preprocess",
     [ ("pd", ImportedName); ("np", ImportedName); ("Optional", ImportedName);
       ("List", ImportedName);
       ("merge_occupancy_hvac", FunctionDef);
       ("add_weather_features", FunctionDef);
       ("add_tou_features", FunctionDef);
       ("engineer_features", FunctionDef);
       ("compute_opportunity_for_savings", FunctionDef) ]);
    ("src.control.optimizer",
     [ ("pd", ImportedName); ("np", ImportedName); ("Optional", ImportedName);
       ("Dict", ImportedName); ("Tuple", ImportedName); ("Any", ImportedName);
       ("compute_savings_and_setpoints", FunctionDef);
       ("estimate_savings_potential", FunctionDef);
       ("simulate_control_policy", FunctionDef) ]);
    ("src.models.prophet_baseline",
     [ ("pd", ImportedName); ("Optional", ImportedName); ("Dict", ImportedName);
       ("Any", ImportedName);
       ("ProphetOccupancyModel", ClassDef) ]);
    ("src.models.transformer_baseline",
     [ ("pd", ImportedName); ("np", ImportedName); ("Optional", ImportedName);
       ("Dict", ImportedName); ("Any", ImportedName); ("Tuple", ImportedName);
       ("TransformerOccupancyModel", ClassDef) ]);
    ("src.viz.dashboards",
     [ ("pd", ImportedName); ("np", ImportedName); ("Optional", ImportedName);
       ("List", ImportedName); ("Tuple", ImportedName); ("plt", ImportedName);
       ("plot_daily_opportunity_for_savings", FunctionDef);
       ("plot_example_day_timeline", FunctionDef);
       ("plot_occupancy_heatmap", FunctionDef);
       ("plot_savings_summary", FunctionDef);
       ("create_interactive_dashboard", FunctionDef) ]) ].

(** A namespace, in the order in which the names were first bound, as a
    Python dictionary keeps it: binding a name again replaces its value. *)
Fixpoint lookup_name {A} (n : string) (ns : list (string * A)) : option A :=
  match ns with
  | [] => None
  | (k, v) :: ns' => if String.eqb n k then Some v else lookup_name n ns'
  end.

Fixpoint bind_name {A} (n : string) (v : A) (ns : list (string * A))
    : list (string * A) :=
  match ns with
  | [] => [(n, v)]
  | (k, w) :: ns' =>
      if String.eqb n k then (k, v) :: ns' else (k, w) :: bind_name n v ns'
  end.

Definition bind_all {A} (l : list (string * A)) : list (string * A) :=
  foldl (λ ns kv, bind_name kv.1 kv.2 ns) [] l.

Definition find_module (path : string) : option (list (string * binding)) :=
  bind_all <$> lookup_name path (bind_all modules).

(** An [__init__.py]: its [from .m import ...] statements, then
    [__all__]. *)
Record init_file := mk_init {
  package : string;
  from_imports : list (string * list string);
  __all__ : list string
}.

Definition data_init : init_file :=
  {| package := "src.data";
     from_imports :=
       [ ("load", ["load_occupancy"; "load_hvac"; "load_weather"; "load_tou";
                   "load_space_metadata"]);
         ("preprocess", ["merge_occupancy_hvac"; "engineer_features"]) ];
     __all__ := ["load_occupancy"; "load_hvac"; "load_weather"; "load_tou";
                 "load_space_metadata"; "merge_occupancy_hvac";
                 "engineer_features"] |}.

Definition control_init : init_file :=
  {| package := "src.control";
     from_imports :=
       [ ("optimizer", ["compute_savings_and_setpoints";
                        "estimate_savings_potential"]) ];
     __all__ := ["compute_savings_and_setpoints";
                 "estimate_savings_potential"] |}.

Definition models_init : init_file :=
  {| package := "src.models";
     from_imports :=
       [ ("prophet_baseline", ["ProphetOccupancyModel"]);
         ("transformer_baseline", ["TransformerOccupancyModel"]) ];
     __all__ := ["ProphetOccupancyModel"; "TransformerOccupancyModel"] |}.

Definition viz_init : init_file :=
  {| package := "src.viz";
     from_imports :=
       [ ("dashboards", ["plot_daily_opportunity_for_savings";
                         "plot_example_day_timeline";
                         "plot_occupancy_heatmap";
                         "plot_savings_summary"]) ];
     __all__ := ["plot_daily_opportunity_for_savings";
                 "plot_example_day_timeline";
                 "plot_occupancy_heatmap";
                 "plot_savings_summary"] |}.

Definition init_files : list init_file :=
  [data_init; control_init; models_init; viz_init].

(** What a name of a package namespace stands for. *)
Inductive entry :=
| Submodule (path : string)
| Member (module name : string) (b : binding).

(** [from .m import n1, ..., nk] inside package [pkg]: fails when the
    module or one of the names does not exist; binds [m] itself and the
    names otherwise. *)
Definition exec_from_import (pkg : string) (ns : list (string * entry))
    (stmt : string * list string) : option (list (string * entry)) :=
  let path := pkg +:+ "." +:+ stmt.1 in
  bs ← find_module path;
  foldl (λ acc n,
           ns ← acc; b ← lookup_name n bs;
           Some (bind_name n (Member path n b) ns))
        (Some (bind_name stmt.1 (Submodule path) ns)) stmt.2.

(** Importing the package runs the statements in order. *)
Definition import_package (i : init_file) : option (list (string * entry)) :=
  foldl (λ acc stmt, ns ← acc; exec_from_import (package i) ns stmt)
        (Some []) (from_imports i).

(** [from pkg import name]. *)
Definition import_from (i : init_file) (name : string) : option entry :=
  ns ← import_package i; lookup_name name ns.

(** [from pkg import *]: the names of [__all__], each of which must be
    bound. *)
Definition import_star (i : init_file) : option (list (string * entry)) :=
  ns ← import_package i;
  mapM (λ n, e ← lookup_name n ns; Some (n, e)) (__all__ i).

Definition is_definition (e : entry) : bool :=
  match e with
  | Member _ _ FunctionDef | Member _ _ ClassDef => true
  | _ => false
  end.

End packages.

(** * Properties *)

(** ** The store: allocation and [df.copy()] *)

Section store.
Implicit Types (σ : gmap loc object) (l df : loc) (d : DataFrame).

Lemma fresh_not_live σ : σ !! fresh (dom σ) = None.
Proof. apply not_elem_of_dom, is_fresh. Qed.

Lemma fresh_ne_live σ l o : σ !! l = Some o → l ≠ fresh (dom σ).
Proof. intros Hl ->. rewrite fresh_not_live in Hl. discriminate. Qed.

Lemma DataFrame_eta d : mkDataFrame (df_columns d) (df_index d) (df_data d) = d.
Proof. by destruct d. Qed.

Lemma is_DataFrame_lookup σ l :
  is_DataFrame σ l = true ↔ ∃ d, σ !! l = Some (ODataFrame d).
Proof.
  unfold is_DataFrame. split.
  - destruct (σ !! l) as [[d | m | m] |]; try discriminate. eauto.
  - by intros [d ->].
Qed.

(** A copy is a new object that holds the same table. *)
Lemma DataFrame_copy_run σ df d :
  σ !! df = Some (ODataFrame d) →
  DataFrame_copy df σ
  = Some (Return (fresh (dom σ)), <[fresh (dom σ) := ODataFrame d]> σ).
Proof.
  intros Hdf. unfold DataFrame_copy, mbind, py_bind, load_df, alloc.
  by rewrite Hdf, DataFrame_eta.
Qed.

(** On anything but a table the copy is stuck. *)
Lemma DataFrame_copy_stuck σ df :
  is_DataFrame σ df = false → DataFrame_copy df σ = None.
Proof.
  unfold is_DataFrame, DataFrame_copy, mbind, py_bind, load_df.
  by destruct (σ !! df) as [[d | m | m] |].
Qed.

Lemma engineer_features_run σ df d (t lf : bool) lag :
  σ !! df = Some (ODataFrame d) →
  preprocess.engineer_features df t lf lag σ
  = Some (Return (PyRef (fresh (dom σ))),
          <[fresh (dom σ) := ODataFrame d]> σ).
Proof.
  intros Hdf. unfold preprocess.engineer_features, mbind, py_bind.
  rewrite (DataFrame_copy_run _ _ _ Hdf).
  by destruct t, lf.
Qed.

Lemma compute_opportunity_for_savings_run σ df d occ hvac energy :
  σ !! df = Some (ODataFrame d) →
  preprocess.compute_opportunity_for_savings df occ hvac energy σ
  = Some (Raise (NotImplementedError
                   "Implement opportunity for savings calculation"),
          <[fresh (dom σ) := ODataFrame d]> σ).
Proof.
  intros Hdf. unfold preprocess.compute_opportunity_for_savings, mbind, py_bind.
  by rewrite (DataFrame_copy_run _ _ _ Hdf).
Qed.

Lemma ProphetOccupancyModel_run σ zone_id freq kwargs :
  prophet_baseline.ProphetOccupancyModel zone_id freq kwargs σ
  = Some (Return (PyRef (fresh (dom σ))),
          <[fresh (dom σ) :=
              OProphet (prophet_baseline.__init__ zone_id freq kwargs)]> σ).
Proof. reflexivity. Qed.

Lemma TransformerOccupancyModel_run σ zone_id sl pl dm nh nl kwargs :
  transformer_baseline.TransformerOccupancyModel zone_id sl pl dm nh nl kwargs σ
  = Some (Return (PyRef (fresh (dom σ))),
          <[fresh (dom σ) :=
              OTransformer (transformer_baseline.__init__
                              zone_id sl pl dm nh nl kwargs)]> σ).
Proof. reflexivity. Qed.

Lemma Prophet__init___run σ self m zone_id freq kwargs :
  σ !! self = Some (OProphet m) →
  prophet_baseline.call__init__ self zone_id freq kwargs σ
  = Some (Return PyNone,
          <[self := OProphet (prophet_baseline.__init__ zone_id freq kwargs)]> σ).
Proof.
  intros Hself.
  unfold prophet_baseline.call__init__, mbind, py_bind,
    prophet_baseline.load_self.
  by rewrite Hself.
Qed.

Lemma Transformer__init___run σ self m zone_id sl pl dm nh nl kwargs :
  σ !! self = Some (OTransformer m) →
  transformer_baseline.call__init__ self zone_id sl pl dm nh nl kwargs σ
  = Some (Return PyNone,
          <[self := OTransformer (transformer_baseline.__init__
                                    zone_id sl pl dm nh nl kwargs)]> σ).
Proof.
  intros Hself.
  unfold transformer_baseline.call__init__, mbind, py_bind,
    transformer_baseline.load_self.
  by rewrite Hself.
Qed.

End store.

(** Brings a run [Hrun : exec c σ = Some (o, σ')] of a given call to the
    equations of its possible ends: the copying functions through their
    run lemmas, the bodies that branch or read [self] by cases on what
    they test.  Runs that are stuck are closed. *)
Ltac exec_cases Hrun :=
  simpl in Hrun;
  rewrite ?ProphetOccupancyModel_run, ?TransformerOccupancyModel_run in Hrun;
  try match type of Hrun with
      | preprocess.engineer_features ?df _ _ _ ?σ = _ =>
          let Hdf := fresh "Hdf" in
          destruct (is_DataFrame σ df) eqn:Hdf;
          [ apply is_DataFrame_lookup in Hdf as [? Hdf];
            rewrite (engineer_features_run _ _ _ _ _ _ Hdf) in Hrun
          | unfold preprocess.engineer_features, mbind, py_bind in Hrun;
            rewrite DataFrame_copy_stuck in Hrun by done;
            discriminate Hrun ]
      | preprocess.compute_opportunity_for_savings ?df _ _ _ ?σ = _ =>
          let Hdf := fresh "Hdf" in
          destruct (is_DataFrame σ df) eqn:Hdf;
          [ apply is_DataFrame_lookup in Hdf as [? Hdf];
            rewrite (compute_opportunity_for_savings_run _ _ _ _ _ _ Hdf)
              in Hrun
          | unfold preprocess.compute_opportunity_for_savings,
              mbind, py_bind in Hrun;
            rewrite DataFrame_copy_stuck in Hrun by done;
            discriminate Hrun ]
      | prophet_baseline.call__init__ ?self _ _ _ ?σ = _ =>
          let Hself := fresh "Hself" in
          destruct (σ !! self) as [[? | ? | ?] |] eqn:Hself;
          [ | rewrite (Prophet__init___run _ _ _ _ _ _ Hself) in Hrun | | ];
          unfold prophet_baseline.call__init__, mbind, py_bind,
            prophet_baseline.load_self in Hrun;
          rewrite ?Hself in Hrun; try discriminate Hrun
      | transformer_baseline.call__init__ ?self _ _ _ _ _ _ _ ?σ = _ =>
          let Hself := fresh "Hself" in
          destruct (σ !! self) as [[? | ? | ?] |] eqn:Hself;
          [ | | rewrite (Transformer__init___run _ _ _ _ _ _ _ _ _ _ Hself)
                  in Hrun | ];
          unfold transformer_baseline.call__init__, mbind, py_bind,
            transformer_baseline.load_self in Hrun;
          rewrite ?Hself in Hrun; try discriminate Hrun
      | optimizer.simulate_control_policy _ ?policy _ _ = _ =>
          unfold optimizer.simulate_control_policy in Hrun;
          destruct (bool_decide (policy ∈ optimizer.valid_policies)) eqn:?;
          simpl in Hrun
      | prophet_baseline.predict ?self _ _ ?σ = _ =>
          let Hself := fresh "Hself" in
          unfold prophet_baseline.predict, mbind, py_bind,
            prophet_baseline.load_self in Hrun;
          destruct (σ !! self) as [[? | ? | ?] |] eqn:Hself;
          try discriminate Hrun;
          match type of Hrun with
          | context [is_None ?x] => destruct (is_None x) eqn:?
          end
      | transformer_baseline.predict ?self _ _ ?σ = _ =>
          let Hself := fresh "Hself" in
          unfold transformer_baseline.predict, mbind, py_bind,
            transformer_baseline.load_self in Hrun;
          destruct (σ !! self) as [[? | ? | ?] |] eqn:Hself;
          try discriminate Hrun;
          match type of Hrun with
          | context [is_None ?x] => destruct (is_None x) eqn:?
          end
      end.

(** The same, then the equations solved for the outcome and the final
    store. *)
Ltac exec_inv Hrun :=
  exec_cases Hrun; try discriminate Hrun; try (injection Hrun as <- <-).

(** ** Policy validation in [simulate_control_policy] *)

Section simulate_control_policy.
Import optimizer.

Lemma policy_error_message_formatted :
  "Policy must be one of " +:+ str_list valid_policies = policy_error_message.
Proof. reflexivity. Qed.

Lemma policy_error_message_cites (name : string) :
  name ∈ valid_policies → cites policy_error_message name.
Proof.
  unfold valid_policies. rewrite !elem_of_cons, elem_of_nil.
  intros [-> | [-> | [-> | []]]].
  - by exists "Policy must be one of ['",
              "', 'predictive_setback', 'optimal_schedule']".
  - by exists "Policy must be one of ['occupancy_setback', '",
              "', 'optimal_schedule']".
  - by exists "Policy must be one of ['occupancy_setback', 'predictive_setback', '",
              "']".
Qed.

Lemma simulate_control_policy_invalid df policy params σ :
  policy ∉ valid_policies →
  simulate_control_policy df policy params σ
  = Some (Raise (ValueError policy_error_message), σ).
Proof.
  intros Hnot. unfold simulate_control_policy.
  by rewrite bool_decide_eq_false_2.
Qed.

Lemma simulate_control_policy_valid df policy params σ :
  policy ∈ valid_policies →
  simulate_control_policy df policy params σ
  = Some (Raise (NotImplementedError "Implement control policy simulation"), σ).
Proof.
  intros Hin. unfold simulate_control_policy.
  by rewrite bool_decide_eq_true_2.
Qed.

(** C2.  Outside the set of the three valid policy names,
    [simulate_control_policy] raises [ValueError] with a message that
    cites each of the three names; inside it, it raises
    [NotImplementedError]; both whatever [historical_df], [policy_params]
    and the store are. *)
Theorem simulate_control_policy_validates
    (historical_df : loc) (policy : string) (policy_params : option pydict)
    (σ : gmap loc object) :
  (policy ∉ valid_policies →
     ∃ msg : string,
       simulate_control_policy historical_df policy policy_params σ
       = Some (Raise (ValueError msg), σ)
       ∧ cites msg "occupancy_setback"
       ∧ cites msg "predictive_setback"
       ∧ cites msg "optimal_schedule")
  ∧ (policy ∈ valid_policies →
     ∃ msg : string,
       simulate_control_policy historical_df policy policy_params σ
       = Some (Raise (NotImplementedError msg), σ)).
Proof.
  split.
  - intros Hnot. exists policy_error_message. split.
    + by apply simulate_control_policy_invalid.
    + repeat split; apply policy_error_message_cites;
        unfold valid_policies; set_solver.
  - intros Hin. eexists. by apply simulate_control_policy_valid.
Qed.

Lemma simulate_control_policy_validates_witness :
  (∃ msg : string,
     simulate_control_policy 1%positive "invalid_policy" None sample_store
     = Some (Raise (ValueError msg), sample_store)
     ∧ cites msg "occupancy_setback"
     ∧ cites msg "predictive_setback"
     ∧ cites msg "optimal_schedule")
  ∧ (∃ msg : string,
     simulate_control_policy 1%positive "optimal_schedule" None sample_store
     = Some (Raise (NotImplementedError msg), sample_store)).
Proof.
  split.
  - apply (simulate_control_policy_validates
             1%positive "invalid_policy" None sample_store).
    apply (bool_decide_eq_false_1 _). reflexivity.
  - apply (simulate_control_policy_validates
             1%positive "optimal_schedule" None sample_store).
    apply (bool_decide_eq_true_1 _). reflexivity.
Defined.

(** C10.  The exception of [simulate_control_policy] is a function of
    the policy string alone: two calls with the same policy raise the
    same exception with the same message, whatever the two tables, the
    two parameter dictionaries and the two stores are; each call leaves
    its store as it found it.  The call never gets stuck, even on a
    reference that leads to no table, so the table is never looked up. *)
Theorem simulate_control_policy_depends_on_policy_only
    (policy : string)
    (df1 df2 : loc) (params1 params2 : option pydict)
    (σ1 σ2 : gmap loc object) :
  ∃ e : exn,
    simulate_control_policy df1 policy params1 σ1 = Some (Raise e, σ1)
    ∧ simulate_control_policy df2 policy params2 σ2 = Some (Raise e, σ2)
    ∧ e = (if bool_decide (policy ∈ valid_policies)
           then NotImplementedError "Implement control policy simulation"
           else ValueError policy_error_message).
Proof.
  unfold simulate_control_policy.
  destruct (bool_decide (policy ∈ valid_policies)); simpl; eauto.
Qed.

End simulate_control_policy.

(** ** Preprocessing: [engineer_features] *)

Section engineer_features.
Import preprocess.
Implicit Types (σ : gmap loc object) (df : loc) (d : DataFrame).

(** C4.  On a table [d], [engineer_features] with both flags set and any
    [lag_periods] returns a reference to a new object that holds a table
    equal to [d], with the columns of [d] and no other; the input object
    is left as it was; and the call gives the same result for every
    combination of the flags and of [lag_periods]. *)
Theorem engineer_features_returns_unmodified_copy
    (σ : gmap loc object) (df : loc) (d : DataFrame)
    (lag_periods : option (list Z)) :
  σ !! df = Some (ODataFrame d) →
  ∃ (result : loc) (σ' : gmap loc object),
    engineer_features df true true lag_periods σ
    = Some (Return (PyRef result), σ')
    ∧ result ≠ df
    ∧ σ !! result = None
    ∧ (∃ d' : DataFrame,
         σ' !! result = Some (ODataFrame d')
         ∧ d' = d
         ∧ df_columns d' = df_columns d)
    ∧ σ' !! df = Some (ODataFrame d)
    ∧ ∀ (include_time_features include_lag_features : bool)
        (lag_periods' : option (list Z)),
        engineer_features df include_time_features include_lag_features
                          lag_periods' σ
        = engineer_features df true true lag_periods σ.
Proof.
  intros Hdf.
  exists (fresh (dom σ)), (<[fresh (dom σ) := ODataFrame d]> σ).
  pose proof (fresh_ne_live _ _ _ Hdf) as Hne.
  split; [by apply engineer_features_run |].
  split; [done |].
  split; [apply fresh_not_live |].
  split; [exists d; by rewrite lookup_insert_eq |].
  split; [by rewrite lookup_insert_ne |].
  intros t l lag'. by rewrite !(engineer_features_run _ _ d).
Qed.

Lemma engineer_features_returns_unmodified_copy_witness :
  ∃ (result : loc) (σ' : gmap loc object),
    engineer_features 1%positive true true (Some [1; 4; 96]%Z) sample_store
    = Some (Return (PyRef result), σ')
    ∧ result ≠ 1%positive
    ∧ sample_store !! result = None
    ∧ (∃ d' : DataFrame,
         σ' !! result = Some (ODataFrame d')
         ∧ d' = sample_df
         ∧ df_columns d' = df_columns sample_df)
    ∧ σ' !! 1%positive = Some (ODataFrame sample_df)
    ∧ ∀ (include_time_features include_lag_features : bool)
        (lag_periods' : option (list Z)),
        engineer_features 1%positive include_time_features
                          include_lag_features lag_periods' sample_store
        = engineer_features 1%positive true true (Some [1; 4; 96]%Z)
                            sample_store.
Proof.
  apply (engineer_features_returns_unmodified_copy
           sample_store 1%positive sample_df (Some [1; 4; 96]%Z)).
  reflexivity.
Defined.

(** The calls that return: [engineer_features], the instantiation of a
    model class, and [__init__] called by name.  Every other call raises
    or is stuck. *)
Lemma returning_calls (c : call) (σ σ' : gmap loc object) (v : pyval) :
  exec c σ = Some (Return v, σ') →
  is_engineer_features c = true
  ∨ kind_of c = ClassCall
  ∨ kind_of c = SpecialMethod.
Proof.
  intros Hrun.
  destruct c; try discriminate Hrun; try (by left); try (by right; left);
    try (by right; right); exec_cases Hrun; discriminate Hrun.
Qed.

(** C9.  [engineer_features] is total: on every table, with every
    combination of the flags and of [lag_periods], it returns.  It is the
    only public function of the package that does: a public function or
    method that returns is a call of [engineer_features].  (Instantiating
    a model class returns too, and so does [__init__] called by name; see
    [returning_calls].) *)
Theorem engineer_features_is_the_only_total_function :
  (∀ (σ : gmap loc object) (df : loc)
     (include_time_features include_lag_features : bool)
     (lag_periods : option (list Z)),
      is_DataFrame σ df = true →
      ∃ (v : pyval) (σ' : gmap loc object),
        engineer_features df include_time_features include_lag_features
                          lag_periods σ
        = Some (Return v, σ'))
  ∧ (∀ (c : call) (σ σ' : gmap loc object) (v : pyval),
      kind_of c = PublicFunction →
      exec c σ = Some (Return v, σ') →
      is_engineer_features c = true).
Proof.
  split.
  - intros σ df t l lag [d Hdf]%is_DataFrame_lookup.
    eexists _, _. by apply engineer_features_run.
  - intros c σ σ' v Hkind Hrun.
    destruct (returning_calls _ _ _ _ Hrun) as [Hef | [Hclass | Hinit]];
      [done | rewrite Hkind in Hclass | rewrite Hkind in Hinit];
      discriminate.
Qed.

Lemma engineer_features_is_the_only_total_function_witness :
  (∃ (v : pyval) (σ' : gmap loc object),
     engineer_features 1%positive false true None sample_store
     = Some (Return v, σ'))
  ∧ is_engineer_features
      (call_engineer_features 1%positive false true None) = true.
Proof.
  destruct engineer_features_is_the_only_total_function as [Htotal Honly].
  split.
  - apply (Htotal sample_store 1%positive false true None). reflexivity.
  - apply (Honly (call_engineer_features 1%positive false true None)
                 sample_store
                 (<[2%positive := ODataFrame sample_df]> sample_store)
                 (PyRef 2%positive)).
    + reflexivity.
    + vm_compute. reflexivity.
Defined.

End engineer_features.

(** ** Models: the fit-before-predict guard *)

Section models.
Implicit Types (σ : gmap loc object) (self df : loc).

Lemma Prophet_predict_unfitted σ self m periods include_history :
  σ !! self = Some (OProphet m) → Prophet.model m = None →
  prophet_baseline.predict self periods include_history σ
  = Some (Raise (ValueError must_be_fitted), σ).
Proof.
  intros Hself Hm.
  unfold prophet_baseline.predict, mbind, py_bind, prophet_baseline.load_self.
  by rewrite Hself, Hm.
Qed.

Lemma Transformer_predict_unfitted σ self m df horizon :
  σ !! self = Some (OTransformer m) → Transformer.model m = None →
  transformer_baseline.predict self df horizon σ
  = Some (Raise (ValueError must_be_fitted), σ).
Proof.
  intros Hself Hm.
  unfold transformer_baseline.predict, mbind, py_bind,
    transformer_baseline.load_self.
  by rewrite Hself, Hm.
Qed.

(** C3.  On an instance that was just constructed, of either class,
    [predict] raises [ValueError] with the message "Model must be fitted
    before prediction", whatever the constructor arguments, the arguments
    of [predict] and the store are. *)
Theorem predict_on_fresh_instance_raises (σ : gmap loc object) :
  (∀ (zone_id : option string) (freq : string) (prophet_kwargs : pydict)
     (periods : Z) (include_history : bool),
      ∃ (self : loc) (σ1 : gmap loc object),
        prophet_baseline.ProphetOccupancyModel zone_id freq prophet_kwargs σ
        = Some (Return (PyRef self), σ1)
        ∧ prophet_baseline.predict self periods include_history σ1
          = Some (Raise (ValueError "Model must be fitted before prediction"),
                  σ1))
  ∧ (∀ (zone_id : option string)
       (seq_length pred_length d_model n_heads n_layers : Z)
       (kwargs : pydict) (df : loc) (horizon : option Z),
      ∃ (self : loc) (σ1 : gmap loc object),
        transformer_baseline.TransformerOccupancyModel
          zone_id seq_length pred_length d_model n_heads n_layers kwargs σ
        = Some (Return (PyRef self), σ1)
        ∧ transformer_baseline.predict self df horizon σ1
          = Some (Raise (ValueError "Model must be fitted before prediction"),
                  σ1)).
Proof.
  split; intros.
  - eexists _, _. split; [apply ProphetOccupancyModel_run |].
    eapply Prophet_predict_unfitted; [apply lookup_insert_eq | done].
  - eexists _, _. split; [apply TransformerOccupancyModel_run |].
    eapply Transformer_predict_unfitted; [apply lookup_insert_eq | done].
Qed.

(** *** [evaluate] has no guard *)

Lemma Prophet_evaluate_run σ self test_df metrics :
  prophet_baseline.evaluate self test_df metrics σ
  = Some (Raise (NotImplementedError "Implement model evaluation"), σ).
Proof. reflexivity. Qed.

Lemma Transformer_evaluate_run σ self test_df metrics :
  transformer_baseline.evaluate self test_df metrics σ
  = Some (Raise (NotImplementedError "Implement model evaluation"), σ).
Proof. reflexivity. Qed.

(** C5, as the claim states it, fails: on the unfitted instances of the
    sample session [evaluate] raises [NotImplementedError], not the
    invalid-state [ValueError]. *)
Lemma evaluate_does_not_guard :
  sample_session !! 2%positive = Some (OProphet sample_prophet)
  ∧ Prophet.model sample_prophet = None
  ∧ prophet_baseline.evaluate 2%positive 1%positive None sample_session
    = Some (Raise (NotImplementedError "Implement model evaluation"),
            sample_session)
  ∧ sample_session !! 3%positive = Some (OTransformer sample_transformer)
  ∧ Transformer.model sample_transformer = None
  ∧ transformer_baseline.evaluate 3%positive 1%positive None sample_session
    = Some (Raise (NotImplementedError "Implement model evaluation"),
            sample_session)
  ∧ ¬ evaluate_guards_fitted_state.
Proof.
  repeat (split; [reflexivity |]).
  intros [Hprophet _].
  destruct (Hprophet sample_session 2%positive 1%positive sample_prophet None)
    as [σ' Hrun]; [reflexivity | reflexivity |].
  rewrite Prophet_evaluate_run in Hrun. discriminate.
Qed.

(** Where the invalid-state failure can come from, among the calls of
    the model layer. *)
Lemma Models_ValueError_source c σ σ' (msg : string) :
  layer_of c = Models →
  exec c σ = Some (Raise (ValueError msg), σ') →
  is_predict c = true ∧ msg = must_be_fitted.
Proof.
  intros Hlayer Hrun.
  destruct c; try discriminate Hlayer; exec_cases Hrun;
    try discriminate Hrun.
  all: by injection Hrun as <- _.
Qed.

(** C5, amended.  For both classes [evaluate] does not look at the fitted
    state: before [fit] as after, with every argument, it raises
    [NotImplementedError] with the message "Implement model evaluation"
    and leaves the store unchanged.  Only [predict] raises the
    invalid-state failure: a call of the model layer that ends in
    [ValueError] is a call of [predict], and [predict] on an instance
    whose [model] is [None] does end in it. *)
Theorem only_predict_guards_fitted_state :
  (∀ (σ : gmap loc object) (self test_df : loc)
     (metrics : option (list string)),
      prophet_baseline.evaluate self test_df metrics σ
      = Some (Raise (NotImplementedError "Implement model evaluation"), σ)
      ∧ transformer_baseline.evaluate self test_df metrics σ
        = Some (Raise (NotImplementedError "Implement model evaluation"), σ))
  ∧ (∀ (c : call) (σ σ' : gmap loc object) (msg : string),
      layer_of c = Models →
      exec c σ = Some (Raise (ValueError msg), σ') →
      is_predict c = true
      ∧ msg = "Model must be fitted before prediction")
  ∧ (∀ (σ : gmap loc object) (self : loc) (m : Prophet.t)
       (periods : Z) (include_history : bool),
      σ !! self = Some (OProphet m) → Prophet.model m = None →
      prophet_baseline.predict self periods include_history σ
      = Some (Raise (ValueError "Model must be fitted before prediction"), σ))
  ∧ (∀ (σ : gmap loc object) (self df : loc) (m : Transformer.t)
       (horizon : option Z),
      σ !! self = Some (OTransformer m) → Transformer.model m = None →
      transformer_baseline.predict self df horizon σ
      = Some (Raise (ValueError "Model must be fitted before prediction"), σ)).
Proof.
  split; [| split; [| split]].
  - intros. split; [apply Prophet_evaluate_run | apply Transformer_evaluate_run].
  - intros c σ σ' msg. apply Models_ValueError_source.
  - intros. by eapply Prophet_predict_unfitted.
  - intros. by eapply Transformer_predict_unfitted.
Qed.

Lemma only_predict_guards_fitted_state_witness :
  (is_predict (call_Transformer_predict 3%positive 1%positive None) = true
   ∧ "Model must be fitted before prediction"
     = "Model must be fitted before prediction")
  ∧ prophet_baseline.predict 2%positive 96 false sample_session
    = Some (Raise (ValueError "Model must be fitted before prediction"),
            sample_session)
  ∧ transformer_baseline.predict 3%positive 1%positive None sample_session
    = Some (Raise (ValueError "Model must be fitted before prediction"),
            sample_session).
Proof.
  destruct only_predict_guards_fitted_state
    as (_ & Honly & Hprophet & Htransformer).
  split; [| split].
  - apply (Honly (call_Transformer_predict 3%positive 1%positive None)
                 sample_session sample_session); reflexivity.
  - apply (Hprophet sample_session 2%positive sample_prophet); reflexivity.
  - apply (Htransformer sample_session 3%positive 1%positive
                        sample_transformer); reflexivity.
Defined.

(** *** The Fitted state is unreachable *)

Lemma all_unfitted_empty : all_unfitted ∅.
Proof. intros l o Hl. by rewrite lookup_empty in Hl. Qed.

Lemma all_unfitted_insert σ l o :
  all_unfitted σ → unfitted o → all_unfitted (<[l := o]> σ).
Proof.
  intros Hσ Ho l' o'. rewrite lookup_insert.
  case_decide; [by intros [= <-] | apply Hσ].
Qed.

(** No call into the package leaves a fitted model behind. *)
Lemma exec_preserves_unfitted c σ σ' (o : outcome pyval) :
  all_unfitted σ → exec c σ = Some (o, σ') → all_unfitted σ'.
Proof.
  intros Hσ Hrun.
  destruct c; exec_inv Hrun; try done; by apply all_unfitted_insert.
Qed.

Lemma step_preserves_unfitted σ σ' :
  all_unfitted σ → step σ σ' → all_unfitted σ'.
Proof.
  intros Hσ Hstep. inversion Hstep; subst.
  - by eapply exec_preserves_unfitted.
  - by apply all_unfitted_insert.
  - by apply all_unfitted_insert.
Qed.

Lemma reachable_all_unfitted σ : reachable σ → all_unfitted σ.
Proof.
  unfold reachable. intros Hreach.
  assert (∀ σ0, rtc step σ0 σ → all_unfitted σ0 → all_unfitted σ) as Hinv.
  { clear Hreach. intros σ0 Hrtc.
    induction Hrtc as [| σ0 σ1 σ2 Hstep _ IH]; [done |].
    intros H0. apply IH. by eapply step_preserves_unfitted. }
  eapply Hinv; [done | apply all_unfitted_empty].
Qed.

(** C8.  In every store that a session can reach, each instance of
    either class has [model] equal to [None]: [fit] raises and leaves the
    store as it was, and [predict] raises the invalid-state [ValueError],
    with every argument. *)
Theorem fitted_state_unreachable (σ : gmap loc object) :
  reachable σ →
  (∀ (self : loc) (m : Prophet.t),
      σ !! self = Some (OProphet m) →
      Prophet.model m = None
      ∧ (∀ df : loc,
           prophet_baseline.fit self df σ
           = Some (Raise (NotImplementedError
                            "Implement Prophet model fitting"), σ))
      ∧ (∀ (periods : Z) (include_history : bool),
           prophet_baseline.predict self periods include_history σ
           = Some (Raise (ValueError
                            "Model must be fitted before prediction"), σ)))
  ∧ (∀ (self : loc) (m : Transformer.t),
      σ !! self = Some (OTransformer m) →
      Transformer.model m = None
      ∧ (∀ (df : loc) (epochs batch_size : Z)
           (learning_rate val_split : spec_float),
           transformer_baseline.fit self df epochs batch_size
                                    learning_rate val_split σ
           = Some (Raise (NotImplementedError
                            "Implement transformer training"), σ))
      ∧ (∀ (df : loc) (horizon : option Z),
           transformer_baseline.predict self df horizon σ
           = Some (Raise (ValueError
                            "Model must be fitted before prediction"), σ))).
Proof.
  intros Hinv%reachable_all_unfitted.
  split; intros self m Hself; pose proof (Hinv _ _ Hself) as Hm;
    simpl in Hm; (split; [exact Hm |]); (split; [reflexivity |]); intros.
  - by eapply Prophet_predict_unfitted.
  - by eapply Transformer_predict_unfitted.
Qed.

(** The sample session is one a client can run: build the table,
    instantiate both classes, call [fit] on the first. *)
Lemma sample_session_reachable : reachable sample_session.
Proof.
  unfold reachable.
  eapply rtc_l; [apply (step_new_DataFrame sample_df) |].
  eapply rtc_l.
  { eapply (step_call (call_ProphetOccupancyModel (Some "Z1") "15min" [])).
    apply ProphetOccupancyModel_run. }
  eapply rtc_l.
  { eapply (step_call (call_TransformerOccupancyModel
                         (Some "Z1") 96 96 64 4 2 [])).
    apply TransformerOccupancyModel_run. }
  eapply rtc_l.
  { eapply (step_call (call_Prophet_fit 2%positive 1%positive)).
    reflexivity. }
  vm_compute. apply rtc_refl.
Qed.

Lemma fitted_state_unreachable_witness :
  (Prophet.model sample_prophet = None
   ∧ (∀ df : loc,
        prophet_baseline.fit 2%positive df sample_session
        = Some (Raise (NotImplementedError
                         "Implement Prophet model fitting"), sample_session))
   ∧ (∀ (periods : Z) (include_history : bool),
        prophet_baseline.predict 2%positive periods include_history
                                 sample_session
        = Some (Raise (ValueError
                         "Model must be fitted before prediction"),
                sample_session)))
  ∧ (Transformer.model sample_transformer = None
     ∧ (∀ (df : loc) (epochs batch_size : Z)
          (learning_rate val_split : spec_float),
          transformer_baseline.fit 3%positive df epochs batch_size
                                   learning_rate val_split sample_session
          = Some (Raise (NotImplementedError
                           "Implement transformer training"), sample_session))
     ∧ (∀ (df : loc) (horizon : option Z),
          transformer_baseline.predict 3%positive df horizon sample_session
          = Some (Raise (ValueError
                           "Model must be fitted before prediction"),
                  sample_session))).
Proof.
  destruct (fitted_state_unreachable sample_session sample_session_reachable)
    as [Hprophet Htransformer].
  split.
  - apply (Hprophet 2%positive sample_prophet). reflexivity.
  - apply (Htransformer 3%positive sample_transformer). reflexivity.
Defined.

End models.

(** ** The interface as a whole *)

Section interface.
Implicit Types (σ : gmap loc object) (c : call).

(** C1, as the claim states it, fails: [engineer_features] is a public
    preprocessing function, it is neither of the two validations, and on
    the sample table it returns. *)
Lemma engineer_features_is_not_a_stub :
  kind_of (call_engineer_features 1%positive true true None) = PublicFunction
  ∧ layer_of (call_engineer_features 1%positive true true None) = Preprocessing
  ∧ is_validation (call_engineer_features 1%positive true true None) = false
  ∧ exec (call_engineer_features 1%positive true true None) sample_store
    = Some (Return (PyRef 2%positive),
            <[2%positive := ODataFrame sample_df]> sample_store)
  ∧ ¬ all_stubs_raise_not_implemented.
Proof.
  assert (exec (call_engineer_features 1%positive true true None) sample_store
          = Some (Return (PyRef 2%positive),
                  <[2%positive := ODataFrame sample_df]> sample_store))
    as Hrun by (vm_compute; reflexivity).
  repeat (split; [done |]).
  intros Hall.
  assert (∃ (msg : string) (σ' : gmap loc object),
            exec (call_engineer_features 1%positive true true None) sample_store
            = Some (Raise (NotImplementedError msg), σ'))
    as (msg & σ' & Hraise) by (apply Hall; done).
  rewrite Hrun in Hraise. discriminate.
Qed.

(** C1, amended.  Every public function or method of the data-loading,
    preprocessing, optimizer and model layers, other than the two
    validations and [engineer_features], raises [NotImplementedError]:
    on every input and in every store, leaving the store as it was, for
    all of them but [compute_opportunity_for_savings], which copies [df]
    first and so raises whenever [df] is a table.  [engineer_features]
    returns on every table. *)
Theorem stubs_raise_not_implemented (c : call) (σ : gmap loc object) :
  kind_of c = PublicFunction →
  layer_of c ≠ Visualization →
  is_validation c = false →
  (copies_table c = false →
     ∃ msg : string, exec c σ = Some (Raise (NotImplementedError msg), σ))
  ∧ (copies_table c = true → is_engineer_features c = false →
     well_typed σ c = true →
     ∃ (msg : string) (σ' : gmap loc object),
       exec c σ = Some (Raise (NotImplementedError msg), σ'))
  ∧ (is_engineer_features c = true →
     well_typed σ c = true →
     ∃ (v : pyval) (σ' : gmap loc object), exec c σ = Some (Return v, σ')).
Proof.
  intros Hkind Hlayer Hval.
  destruct c; try discriminate Hkind; try discriminate Hval;
    try (by destruct Hlayer);
    (split; [| split]); intros; try discriminate; try (by eexists).
  - (* engineer_features *)
    match goal with
    | H : well_typed _ _ = true |- _ =>
        apply is_DataFrame_lookup in H as [d Hdf]
    end.
    eexists _, _. by apply engineer_features_run.
  - (* compute_opportunity_for_savings *)
    match goal with
    | H : well_typed _ _ = true |- _ =>
        apply is_DataFrame_lookup in H as [d Hdf]
    end.
    eexists _, _. by apply compute_opportunity_for_savings_run.
Qed.

Lemma stubs_raise_not_implemented_witness :
  (∃ msg : string,
     exec (call_Transformer_fit 9%positive 8%positive 100 32
             (S754_zero false) (S754_zero false)) sample_store
     = Some (Raise (NotImplementedError msg), sample_store))
  ∧ (∃ (msg : string) (σ' : gmap loc object),
       exec (call_compute_opportunity_for_savings
               1%positive "occupancy_count" "hvac_on" (Some "energy_kwh"))
            sample_store
       = Some (Raise (NotImplementedError msg), σ'))
  ∧ (∃ (v : pyval) (σ' : gmap loc object),
       exec (call_engineer_features 1%positive true false None) sample_store
       = Some (Return v, σ')).
Proof.
  split; [| split].
  - apply (stubs_raise_not_implemented
             (call_Transformer_fit 9%positive 8%positive 100 32
                (S754_zero false) (S754_zero false))
             sample_store); [reflexivity | discriminate | reflexivity ..].
  - apply (stubs_raise_not_implemented
             (call_compute_opportunity_for_savings
                1%positive "occupancy_count" "hvac_on" (Some "energy_kwh"))
             sample_store); [reflexivity | discriminate | reflexivity ..].
  - apply (stubs_raise_not_implemented
             (call_engineer_features 1%positive true false None)
             sample_store); [reflexivity | discriminate | reflexivity ..].
Defined.

(** C6.  Each of the four plotting functions and the dashboard launcher
    raises [NotImplementedError], on every input and in every store, and
    leaves the store as it was; none of them returns. *)
Theorem dashboards_raise_not_implemented (c : call) (σ : gmap loc object) :
  layer_of c = Visualization →
  (∃ msg : string, exec c σ = Some (Raise (NotImplementedError msg), σ))
  ∧ ∀ (v : pyval) (σ' : gmap loc object), exec c σ ≠ Some (Return v, σ').
Proof.
  intros Hlayer.
  destruct c; try discriminate Hlayer; (split; [by eexists | by intros]).
Qed.

Lemma dashboards_raise_not_implemented_witness :
  (∃ msg : string,
     exec (call_plot_occupancy_heatmap 1%positive None "mean" (12, 8)%Z)
          sample_store
     = Some (Raise (NotImplementedError msg), sample_store))
  ∧ ∀ (v : pyval) (σ' : gmap loc object),
      exec (call_plot_occupancy_heatmap 1%positive None "mean" (12, 8)%Z)
           sample_store
      ≠ Some (Return v, σ').
Proof.
  apply (dashboards_raise_not_implemented
           (call_plot_occupancy_heatmap 1%positive None "mean" (12, 8)%Z)
           sample_store).
  reflexivity.
Defined.

(** The five members of the visualization module are the five calls of
    that layer. *)
Lemma visualization_members c :
  layer_of c = Visualization ↔
  (∃ df a b e f t, c = call_plot_daily_opportunity_for_savings df a b e f t)
  ∨ (∃ df a z f, c = call_plot_example_day_timeline df a z f)
  ∨ (∃ df z a f, c = call_plot_occupancy_heatmap df z a f)
  ∨ (∃ s f, c = call_plot_savings_summary s f)
  ∨ (∃ df p, c = call_create_interactive_dashboard df p).
Proof.
  split.
  - destruct c; try discriminate; intros _;
      [ left | right; left | right; right; left
      | right; right; right; left | right; right; right; right ];
      eauto 10.
  - intros H.
    repeat match goal with
           | H : _ ∨ _ |- _ => destruct H as [H | H]
           | H : ∃ _, _ |- _ => destruct H as [? H]
           end; by subst.
Qed.

(** C7.  Whatever call raises [NotImplementedError], in whatever store,
    public or private, the exception carries a message that is not the
    empty string. *)
Theorem not_implemented_carries_message
    (c : call) (σ σ' : gmap loc object) (msg : string) :
  exec c σ = Some (Raise (NotImplementedError msg), σ') →
  msg ≠ "".
Proof.
  intros Hrun.
  destruct c; exec_cases Hrun; try discriminate Hrun;
    by injection Hrun as <- _.
Qed.

Lemma not_implemented_carries_message_witness :
  "Implement once raw data format is confirmed" ≠ "".
Proof.
  apply (not_implemented_carries_message
           (call_load_occupancy "data/raw/occupancy.csv" true) ∅ ∅).
  reflexivity.
Defined.

End interface.

(** ** What the package does to the store *)

Section effects.
Implicit Types (σ : gmap loc object) (c : call) (o : outcome pyval).

(** Every run of every call falls under one of the effects. *)
Lemma exec_effect c σ σ' o : exec c σ = Some (o, σ') → effect σ σ'.
Proof.
  intros Hrun.
  destruct c; exec_inv Hrun;
    first [ by apply effect_none
          | by eapply effect_copy
          | by eapply effect_Prophet
          | by eapply effect_Transformer
          | by eapply effect_Prophet__init__
          | by eapply effect_Transformer__init__ ].
Qed.

(** The shape of the final store, by the kind of call. *)
Lemma exec_store c σ σ' o :
  exec c σ = Some (o, σ') →
  match reinit_of c with
  | Some self =>
      ∃ old new : object,
        σ !! self = Some old ∧ is_instance old = true
        ∧ σ' = <[self := new]> σ
  | None =>
      if allocates c
      then ∃ obj : object, σ' = <[fresh (dom σ) := obj]> σ
      else σ' = σ
  end.
Proof.
  intros Hrun. destruct c; exec_inv Hrun; simpl; eauto.
Qed.

Lemma exec_frame c σ σ' o :
  exec c σ = Some (o, σ') → reinit_of c = None → σ ⊆ σ'.
Proof.
  intros Hstore%exec_store Hc. rewrite Hc in Hstore.
  destruct (allocates c); [| by subst].
  destruct Hstore as [obj ->]. apply insert_subseteq, fresh_not_live.
Qed.




(** X2.  The package never makes up data: a table found in the store
    after a call, whatever the call and its outcome, has the content of a
    table that was in the store before it. *)
Theorem calls_create_no_new_table_content
    (c : call) (σ σ' : gmap loc object) (o : outcome pyval)
    (l : loc) (d : DataFrame) :
  exec c σ = Some (o, σ') →
  σ' !! l = Some (ODataFrame d) →
  ∃ l0 : loc, σ !! l0 = Some (ODataFrame d).
Proof.
  intros Heff%exec_effect Hl.
  destruct Heff as [-> | df d0 Hdf -> | ? ? ? -> | ? ? ? ? ? ? ? ->
                    | ? ? ? ? ? ? -> | ? ? ? ? ? ? ? ? ? ? ->];
    [by eauto | ..];
    rewrite lookup_insert in Hl; case_decide; simplify_eq; eauto.
Qed.

Lemma calls_create_no_new_table_content_witness :
  ∃ l0 : loc, sample_store !! l0 = Some (ODataFrame sample_df).
Proof.
  apply (calls_create_no_new_table_content
           (call_engineer_features 1%positive true true None)
           sample_store
           (<[2%positive := ODataFrame sample_df]> sample_store)
           (Return (PyRef 2%positive)) 2%positive sample_df).
  - vm_compute. reflexivity.
  - reflexivity.
Defined.

(** X3.  [ValueError] comes from the three validating entry points only
    ([simulate_control_policy] and the two [predict] methods), with one of
    two messages, and from a run that left the store as it was. *)
Theorem ValueError_only_from_validations
    (c : call) (σ σ' : gmap loc object) (msg : string) :
  exec c σ = Some (Raise (ValueError msg), σ') →
  is_validation c = true
  ∧ σ' = σ
  ∧ (msg = policy_error_message ∨ msg = must_be_fitted).
Proof.
  intros Hrun.
  destruct c; exec_cases Hrun; try discriminate Hrun;
    injection Hrun as <- <-;
    rewrite ?policy_error_message_formatted; eauto.
Qed.

Lemma ValueError_only_from_validations_witness :
  is_validation (call_simulate_control_policy 1%positive "setback" None) = true
  ∧ sample_store = sample_store
  ∧ (policy_error_message = policy_error_message
     ∨ policy_error_message = must_be_fitted).
Proof.
  apply (ValueError_only_from_validations
           (call_simulate_control_policy 1%positive "setback" None)
           sample_store sample_store policy_error_message).
  reflexivity.
Defined.

Lemma exec_return c σ σ' (v : pyval) :
  exec c σ = Some (Return v, σ') →
  (is_Some (reinit_of c) ∧ v = PyNone)
  ∨ (reinit_of c = None
     ∧ ∃ l : loc, v = PyRef l ∧ σ !! l = None ∧ is_Some (σ' !! l)).
Proof.
  intros Hrun.
  destruct c; exec_cases Hrun; try discriminate Hrun;
    injection Hrun as <- <-; simpl;
    first [ by left; eauto
          | right; split; [done |]; eexists; split; [done |];
            split; [apply fresh_not_live | by rewrite lookup_insert_eq] ].
Qed.

(** X4.  What a call returns is a reference to an object that the call
    has just created, never an object that existed before and so never
    an argument; the one exception is [__init__] called by name, which
    returns [None]. *)
Theorem returned_value_is_a_new_object
    (c : call) (σ σ' : gmap loc object) (v : pyval) :
  exec c σ = Some (Return v, σ') →
  (is_Some (reinit_of c) ∧ v = PyNone)
  ∨ (reinit_of c = None
     ∧ ∃ l : loc, v = PyRef l ∧ σ !! l = None ∧ is_Some (σ' !! l)).
Proof. apply exec_return. Qed.

Lemma returned_value_is_a_new_object_witness :
  (is_Some (reinit_of (call_ProphetOccupancyModel (Some "Z1") "15min" []))
   ∧ PyRef 2%positive = PyNone)
  ∨ (reinit_of (call_ProphetOccupancyModel (Some "Z1") "15min" []) = None
     ∧ ∃ l : loc,
         PyRef 2%positive = PyRef l
         ∧ sample_store !! l = None
         ∧ is_Some ((<[2%positive := OProphet sample_prophet]> sample_store)
                      !! l)).
Proof.
  apply (returned_value_is_a_new_object
           (call_ProphetOccupancyModel (Some "Z1") "15min" [])
           sample_store
           (<[2%positive := OProphet sample_prophet]> sample_store)
           (PyRef 2%positive)).
  vm_compute. reflexivity.
Defined.

(** X5.  Two calls that return an object, one after the other, return
    different objects, and the second call leaves the object of the first
    as it was: results are never shared. *)
Theorem successive_results_are_distinct
    (c1 c2 : call) (σ σ1 σ2 : gmap loc object) (l1 l2 : loc) :
  exec c1 σ = Some (Return (PyRef l1), σ1) →
  exec c2 σ1 = Some (Return (PyRef l2), σ2) →
  l1 ≠ l2 ∧ is_Some (σ1 !! l1) ∧ σ2 !! l1 = σ1 !! l1.
Proof.
  intros H1 H2.
  destruct (exec_return _ _ _ _ H1)
    as [[_ [=]] | (_ & l & [= <-] & _ & [o1 Ho1])].
  destruct (exec_return _ _ _ _ H2)
    as [[_ [=]] | (Hc2 & l & [= <-] & Hnew & _)].
  split; [intros ->; congruence |]. split; [by eexists |].
  rewrite Ho1. eapply lookup_weaken; [done |]. by eapply exec_frame.
Qed.

Lemma successive_results_are_distinct_witness :
  2%positive ≠ 3%positive
  ∧ is_Some ((<[2%positive := OProphet sample_prophet]> sample_store)
               !! 2%positive)
  ∧ (<[3%positive := ODataFrame sample_df]>
       (<[2%positive := OProphet sample_prophet]> sample_store)) !! 2%positive
    = (<[2%positive := OProphet sample_prophet]> sample_store) !! 2%positive.
Proof.
  apply (successive_results_are_distinct
           (call_ProphetOccupancyModel (Some "Z1") "15min" [])
           (call_engineer_features 1%positive true true None)
           sample_store
           (<[2%positive := OProphet sample_prophet]> sample_store)
           (<[3%positive := ODataFrame sample_df]>
              (<[2%positive := OProphet sample_prophet]> sample_store))).
  - vm_compute. reflexivity.
  - vm_compute. reflexivity.
Defined.

End effects.

(** ** Sessions: what stays true whatever the client does *)

Section sessions.
Implicit Types (σ : gmap loc object) (c : call) (l : loc).

Lemma scaler_unset_insert σ l obj :
  (∀ l0 o0, σ !! l0 = Some o0 → scaler_unset o0) → scaler_unset obj →
  ∀ l0 o0, (<[l := obj]> σ) !! l0 = Some o0 → scaler_unset o0.
Proof.
  intros Hσ Hobj l0 o0. rewrite lookup_insert.
  case_decide; [by intros [= <-] | apply Hσ].
Qed.

Lemma step_preserves_scaler_unset σ σ' :
  step σ σ' →
  (∀ l obj, σ !! l = Some obj → scaler_unset obj) →
  ∀ l obj, σ' !! l = Some obj → scaler_unset obj.
Proof.
  intros Hstep Hσ. inversion Hstep; subst.
  - destruct (exec_effect _ _ _ _ H)
      as [-> | df d Hdf -> | ? ? ? -> | ? ? ? ? ? ? ? ->
          | ? ? ? ? ? ? -> | ? ? ? ? ? ? ? ? ? ? ->];
      [done | by apply scaler_unset_insert ..].
  - by apply scaler_unset_insert.
  - by apply scaler_unset_insert.
Qed.

(** X11.  In every store that a session can reach, the [scaler] of each
    Transformer instance is [None]: [__init__] sets it to [None] and no
    method assigns it afterwards. *)
Theorem reachable_scaler_is_unset
    (σ : gmap loc object) (l : loc) (m : Transformer.t) :
  reachable σ →
  σ !! l = Some (OTransformer m) →
  Transformer.scaler m = None.
Proof.
  unfold reachable. intros Hreach Hl.
  assert (∀ σ0, rtc step σ0 σ →
            (∀ l obj, σ0 !! l = Some obj → scaler_unset obj) →
            ∀ l obj, σ !! l = Some obj → scaler_unset obj) as Hinv.
  { clear. intros σ0 Hrtc.
    induction Hrtc as [| σ0 σ1 σ2 Hstep _ IH]; [done |].
    intros H0. apply IH. by apply (step_preserves_scaler_unset σ0). }
  apply (Hinv ∅ Hreach) in Hl; [done |].
  intros l0 o0 H0. by rewrite lookup_empty in H0.
Qed.

Lemma reachable_scaler_is_unset_witness :
  Transformer.scaler sample_transformer = None.
Proof.
  apply (reachable_scaler_is_unset sample_session 3%positive
           sample_transformer).
  - apply sample_session_reachable.
  - reflexivity.
Defined.

Lemma insert_keeps_class σ l l0 (old new : object) :
  σ !! l0 = Some old →
  match old, new with
  | ODataFrame _, ODataFrame _ | OProphet _, OProphet _
  | OTransformer _, OTransformer _ => True
  | _, _ => False
  end →
  (is_DataFrame σ l = true → is_DataFrame (<[l0 := new]> σ) l = true)
  ∧ (is_Prophet σ l = true → is_Prophet (<[l0 := new]> σ) l = true)
  ∧ (is_Transformer σ l = true → is_Transformer (<[l0 := new]> σ) l = true).
Proof.
  intros Hold Hclass. unfold is_DataFrame, is_Prophet, is_Transformer.
  destruct (decide (l0 = l)) as [-> | Hne].
  - rewrite lookup_insert_eq, Hold. by destruct old, new.
  - by rewrite lookup_insert_ne.
Qed.

Lemma insert_fresh_keeps_class σ l (new : object) :
  (is_DataFrame σ l = true → is_DataFrame (<[fresh (dom σ) := new]> σ) l = true)
  ∧ (is_Prophet σ l = true → is_Prophet (<[fresh (dom σ) := new]> σ) l = true)
  ∧ (is_Transformer σ l = true →
     is_Transformer (<[fresh (dom σ) := new]> σ) l = true).
Proof.
  unfold is_DataFrame, is_Prophet, is_Transformer.
  destruct (decide (fresh (dom σ) = l)) as [<- | Hne].
  - by rewrite fresh_not_live.
  - by rewrite lookup_insert_ne.
Qed.

Lemma step_keeps_class σ σ' l :
  step σ σ' →
  (is_DataFrame σ l = true → is_DataFrame σ' l = true)
  ∧ (is_Prophet σ l = true → is_Prophet σ' l = true)
  ∧ (is_Transformer σ l = true → is_Transformer σ' l = true).
Proof.
  intros Hstep. inversion Hstep; subst.
  - destruct (exec_effect _ _ _ _ H)
      as [-> | df d Hdf -> | ? ? ? -> | ? ? ? ? ? ? ? ->
          | self m ? ? ? Hself -> | self m ? ? ? ? ? ? ? Hself ->];
      [done | apply insert_fresh_keeps_class .. | |].
    + by eapply insert_keeps_class.
    + by eapply insert_keeps_class.
  - apply insert_fresh_keeps_class.
  - by eapply insert_keeps_class.
Qed.

Lemma step_keeps_well_typed σ σ' c :
  step σ σ' → well_typed σ c = true → well_typed σ' c = true.
Proof.
  intros Hstep.
  pose proof (λ l, proj1 (step_keeps_class σ σ' l Hstep)) as Hdf.
  pose proof (λ l, proj1 (proj2 (step_keeps_class σ σ' l Hstep))) as Hp.
  pose proof (λ l, proj2 (proj2 (step_keeps_class σ σ' l Hstep))) as Ht.
  destruct c; simpl; try done;
    rewrite ?andb_true_iff; try destruct tou_rates; intuition auto.
Qed.

(** X12.  Arguments stay good: a reference to a table keeps referring to
    a table, and a reference to an instance to an instance of the same
    class, whatever the session does next; so a call whose arguments are
    of the declared types remains one at every later point. *)
Theorem well_typed_calls_stay_well_typed
    (σ σ' : gmap loc object) (c : call) :
  rtc step σ σ' → well_typed σ c = true → well_typed σ' c = true.
Proof.
  intros Hrtc. induction Hrtc as [| σ0 σ1 σ2 Hstep _ IH]; [done |].
  intros Htyped. apply IH. by eapply step_keeps_well_typed.
Qed.

Lemma well_typed_calls_stay_well_typed_witness :
  well_typed (<[4%positive := ODataFrame sample_df]> sample_session)
             (call_Transformer_predict 3%positive 1%positive (Some 96%Z))
  = true.
Proof.
  apply (well_typed_calls_stay_well_typed
           sample_session
           (<[4%positive := ODataFrame sample_df]> sample_session)
           (call_Transformer_predict 3%positive 1%positive (Some 96%Z))).
  - apply rtc_once.
    apply (step_call (call_engineer_features 1%positive true true None)
                     _ _ (Return (PyRef 4%positive))).
    vm_compute. reflexivity.
  - reflexivity.
Defined.

(** X13.  On arguments of the declared types (references to objects of
    the declared class, keyword dictionaries that [**kwargs] can collect)
    every call runs to an end: it returns or it raises one of the two
    exceptions, and is never stuck on a reference. *)
Theorem well_typed_calls_run (σ : gmap loc object) (c : call) :
  well_typed σ c = true →
  ∃ (o : outcome pyval) (σ' : gmap loc object), exec c σ = Some (o, σ').
Proof.
  intros Htyped.
  destruct c; simpl in *; try (by eexists _, _).
  - apply is_DataFrame_lookup in Htyped as [d Hdf].
    eexists _, _. by apply engineer_features_run.
  - apply is_DataFrame_lookup in Htyped as [d Hdf].
    eexists _, _. by apply compute_opportunity_for_savings_run.
  - unfold optimizer.simulate_control_policy.
    destruct (negb _); by eexists _, _.
  - apply andb_true_iff in Htyped as [Htyped _]. unfold is_Prophet in Htyped.
    destruct (σ !! self) as [[? | m | ?] |] eqn:Hself; try discriminate.
    eexists _, _. by eapply Prophet__init___run.
  - unfold is_Prophet in Htyped.
    unfold prophet_baseline.predict, mbind, py_bind, prophet_baseline.load_self.
    destruct (σ !! self) as [[? | m | ?] |]; try discriminate.
    destruct (is_None _); by eexists _, _.
  - apply andb_true_iff in Htyped as [Htyped _]. unfold is_Transformer in Htyped.
    destruct (σ !! self) as [[? | ? | m] |] eqn:Hself; try discriminate.
    eexists _, _. by eapply Transformer__init___run.
  - apply andb_true_iff in Htyped as [Htyped _]. unfold is_Transformer in Htyped.
    unfold transformer_baseline.predict, mbind, py_bind,
      transformer_baseline.load_self.
    destruct (σ !! self) as [[? | ? | m] |]; try discriminate.
    destruct (is_None _); by eexists _, _.
Qed.

Lemma well_typed_calls_run_witness :
  ∃ (o : outcome pyval) (σ' : gmap loc object),
    exec (call_Prophet__init__ 2%positive (Some "Z2") "1H"
            [("daily_seasonality", PyBool true)]) sample_session
    = Some (o, σ').
Proof.
  apply (well_typed_calls_run sample_session
           (call_Prophet__init__ 2%positive (Some "Z2") "1H"
              [("daily_seasonality", PyBool true)])).
  vm_compute. reflexivity.
Defined.

End sessions.

(** ** Preprocessing: copies *)

Section copies.
Import preprocess.
Implicit Types (σ : gmap loc object) (df : loc) (d : DataFrame).

(** X14.  [engineer_features] composes: fed its own result, with any
    flags, it returns once more; input, first result and second result
    are three different objects, and each holds the table of the input. *)
Theorem engineer_features_twice
    (σ : gmap loc object) (df : loc) (d : DataFrame)
    (t1 l1 t2 l2 : bool) (lag1 lag2 : option (list Z)) :
  σ !! df = Some (ODataFrame d) →
  ∃ (r1 r2 : loc) (σ1 σ2 : gmap loc object),
    engineer_features df t1 l1 lag1 σ = Some (Return (PyRef r1), σ1)
    ∧ engineer_features r1 t2 l2 lag2 σ1 = Some (Return (PyRef r2), σ2)
    ∧ r1 ≠ df ∧ r2 ≠ df ∧ r2 ≠ r1
    ∧ σ2 !! df = Some (ODataFrame d)
    ∧ σ2 !! r1 = Some (ODataFrame d)
    ∧ σ2 !! r2 = Some (ODataFrame d).
Proof.
  intros Hdf.
  set (r1 := fresh (dom σ)).
  set (σ1 := <[r1 := ODataFrame d]> σ).
  set (r2 := fresh (dom σ1)).
  assert (σ1 !! r1 = Some (ODataFrame d)) as Hr1 by apply lookup_insert_eq.
  assert (r1 ≠ df) as Hne1 by (symmetry; by eapply fresh_ne_live).
  assert (σ1 !! df = Some (ODataFrame d)) as Hdf1
    by (unfold σ1; by rewrite lookup_insert_ne).
  assert (r2 ≠ df) as Hne2 by (symmetry; by eapply fresh_ne_live).
  assert (r2 ≠ r1) as Hne21 by (symmetry; by eapply fresh_ne_live).
  exists r1, r2, σ1, (<[r2 := ODataFrame d]> σ1).
  split; [by apply engineer_features_run |].
  split; [by apply engineer_features_run |].
  repeat (split; [done |]).
  split; [by rewrite lookup_insert_ne |].
  split; [by rewrite lookup_insert_ne | by rewrite lookup_insert_eq].
Qed.

Lemma engineer_features_twice_witness :
  ∃ (r1 r2 : loc) (σ1 σ2 : gmap loc object),
    engineer_features 1%positive true false None sample_store
    = Some (Return (PyRef r1), σ1)
    ∧ engineer_features r1 false true (Some [96%Z]) σ1
      = Some (Return (PyRef r2), σ2)
    ∧ r1 ≠ 1%positive ∧ r2 ≠ 1%positive ∧ r2 ≠ r1
    ∧ σ2 !! 1%positive = Some (ODataFrame sample_df)
    ∧ σ2 !! r1 = Some (ODataFrame sample_df)
    ∧ σ2 !! r2 = Some (ODataFrame sample_df).
Proof.
  apply (engineer_features_twice sample_store 1%positive sample_df
           true false false true None (Some [96%Z])).
  reflexivity.
Defined.

(** X15.  [compute_opportunity_for_savings] copies before it raises: on
    a table it always ends in [NotImplementedError], whatever the column
    names, and by then the store holds one more object, a copy of the
    table; the table itself is as it was. *)
Theorem compute_opportunity_for_savings_copies_then_raises
    (σ : gmap loc object) (df : loc) (d : DataFrame)
    (occupancy_col hvac_state_col : string) (energy_col : option string) :
  σ !! df = Some (ODataFrame d) →
  ∃ (result : loc) (σ' : gmap loc object),
    compute_opportunity_for_savings df occupancy_col hvac_state_col
                                    energy_col σ
    = Some (Raise (NotImplementedError
                     "Implement opportunity for savings calculation"), σ')
    ∧ σ !! result = None
    ∧ σ' = <[result := ODataFrame d]> σ
    ∧ σ' !! df = Some (ODataFrame d)
    ∧ size σ' = S (size σ).
Proof.
  intros Hdf. eexists _, _.
  split; [by apply compute_opportunity_for_savings_run |].
  split; [apply fresh_not_live |]. split; [done |].
  split.
  - rewrite lookup_insert_ne; [done |]. symmetry. by eapply fresh_ne_live.
  - apply map_size_insert_None, fresh_not_live.
Qed.

Lemma compute_opportunity_for_savings_copies_then_raises_witness :
  ∃ (result : loc) (σ' : gmap loc object),
    compute_opportunity_for_savings 1%positive "occupancy_count" "hvac_on"
                                    (Some "energy_kwh") sample_store
    = Some (Raise (NotImplementedError
                     "Implement opportunity for savings calculation"), σ')
    ∧ sample_store !! result = None
    ∧ σ' = <[result := ODataFrame sample_df]> sample_store
    ∧ σ' !! 1%positive = Some (ODataFrame sample_df)
    ∧ size σ' = S (size sample_store).
Proof.
  apply (compute_opportunity_for_savings_copies_then_raises
           sample_store 1%positive sample_df
           "occupancy_count" "hvac_on" (Some "energy_kwh")).
  reflexivity.
Defined.

End copies.

(** ** The package files *)

Section exports.
Import packages.

(** Settles a statement about one concrete package by listing its
    namespace. *)
Ltac split_Forall :=
  repeat match goal with
         | |- Forall _ (_ :: _) => constructor
         | |- Forall _ [] => constructor
         end.

Lemma lookup_name_elem_of {A} (n : string) (v : A) (ns : list (string * A)) :
  lookup_name n ns = Some v → (n, v) ∈ ns.
Proof.
  induction ns as [| [k w] ns IH]; simpl; [discriminate |].
  destruct (String.eqb_spec n k) as [-> | Hne].
  - intros [= ->]. by left.
  - intros Hv. right. by apply IH.
Qed.

Ltac check_entry :=
  simpl; intros Hdef;
  first
    [ discriminate Hdef
    | split;
      [ apply (bool_decide_unpack _); vm_compute; exact I
      | eexists _, _; split; [reflexivity | vm_compute; reflexivity] ] ].

Ltac check_export := eexists; split; vm_compute; reflexivity.

Lemma import_package_namespace (i : init_file) :
  i ∈ init_files →
  ∃ ns : list (string * entry),
    import_package i = Some ns
    ∧ Forall
        (λ ne,
           is_definition ne.2 = true →
           ne.1 ∈ __all__ i
           ∧ ∃ path b, ne.2 = Member path ne.1 b
                       ∧ find_module path ≫= lookup_name ne.1 = Some b) ns
    ∧ Forall (λ name, ∃ e, lookup_name name ns = Some e
                           ∧ is_definition e = true)
             (__all__ i).
Proof.
  unfold init_files. rewrite !elem_of_cons, elem_of_nil.
  intros [-> | [-> | [-> | [-> | []]]]];
    (eexists; split; [vm_compute; reflexivity |]; split;
     [ split_Forall; check_entry
     | unfold __all__; simpl; split_Forall; check_export ]).
Qed.

Lemma import_star_names (i : init_file) :
  i ∈ init_files →
  ∃ bound : list (string * entry),
    import_star i = Some bound ∧ bound.*1 = __all__ i.
Proof.
  unfold init_files. rewrite !elem_of_cons, elem_of_nil.
  intros [-> | [-> | [-> | [-> | []]]]];
    eexists; (split; [vm_compute; reflexivity | reflexivity]).
Qed.

(** X16.  In each of the four packages the [__init__] file is
    consistent: importing the package succeeds; [from pkg import *]
    succeeds and binds the names of [__all__], in order; a name can be
    imported from the package as a function or class exactly when it is
    in [__all__]; and what it is bound to is the function or class defined
    under that very name in a module. *)
Theorem packages_export_what_they_import (i : init_file) (name : string) :
  i ∈ init_files →
  is_Some (import_package i)
  ∧ (∃ bound : list (string * entry),
       import_star i = Some bound ∧ bound.*1 = __all__ i)
  ∧ (name ∈ __all__ i ↔
     ∃ e : entry, import_from i name = Some e ∧ is_definition e = true)
  ∧ (∀ e : entry,
       import_from i name = Some e → is_definition e = true →
       ∃ (path : string) (b : binding),
         e = Member path name b
         ∧ find_module path ≫= lookup_name name = Some b).
Proof.
  intros Hi.
  destruct (import_package_namespace i Hi) as (ns & Hns & Hall & Hexp).
  assert (import_from i name = lookup_name name ns) as ->
    by (unfold import_from; by rewrite Hns).
  rewrite Forall_forall in Hall. rewrite Forall_forall in Hexp.
  split; [by rewrite Hns |].
  split; [by apply import_star_names |].
  split; [split |].
  - intros Hin. by apply Hexp.
  - intros (e & He%lookup_name_elem_of & Hdef).
    by destruct (Hall _ He Hdef).
  - intros e He%lookup_name_elem_of Hdef.
    by destruct (Hall _ He Hdef).
Qed.

Lemma packages_export_what_they_import_witness :
  is_Some (import_package control_init)
  ∧ (∃ bound : list (string * entry),
       import_star control_init = Some bound
       ∧ bound.*1 = __all__ control_init)
  ∧ ("simulate_control_policy" ∈ __all__ control_init ↔
     ∃ e : entry,
       import_from control_init "simulate_control_policy" = Some e
       ∧ is_definition e = true)
  ∧ (∀ e : entry,
       import_from control_init "simulate_control_policy" = Some e →
       is_definition e = true →
       ∃ (path : string) (b : binding),
         e = Member path "simulate_control_policy" b
         ∧ find_module path ≫= lookup_name "simulate_control_policy"
           = Some b).
Proof.
  apply (packages_export_what_they_import
           control_init "simulate_control_policy").
  unfold init_files. do 2 constructor.
Defined.

End exports.
